(** * Flower image classification server

    A shallow embedding of [server/server_fastapi_image_model.py]: the
    preprocessing of an uploaded picture into a float32 tensor, the call of
    the loaded classifier, the softmax and label pairing of [predict_image],
    the [/predict] handler and the loading of the model when the module is
    imported.

    The program is glue over Pillow, NumPy, TensorFlow and FastAPI.  What
    these libraries compute but the program never inspects (the decoder, the
    colour converters of the other modes, the resampling filter, the trained
    network, the model file reader) is kept as a parameter of a section; what
    the program relies on (sizes, shapes, element types, which call raises
    and which exception reaches which handler) is written out. *)

From Stdlib Require Import ZArith QArith Qabs String Ascii Strings.Byte Bool Arith Lia.
From Stdlib Require Import Numbers.DecimalString Floats.SpecFloat Reals Lra.
From Stdlib Require Import List.
Import ListNotations.

Close Scope Q_scope.

Set Implicit Arguments.

(** ** IEEE 754 numbers: binary32 for NumPy arrays, binary64 for Python floats *)

Module Float.

Definition float32 := spec_float.
Definition float64 := spec_float.

Definition prec32 : Z := 24.
Definition emax32 : Z := 128.
Definition prec64 : Z := 53.
Definition emax64 : Z := 1024.

(** An integer, rounded to the nearest binary32 (exact up to 2^24). *)
Definition f32_of_Z (z : Z) : float32 := binary_normalize prec32 emax32 z 0 false.

(** A Python float literal with an integer value. *)
Definition f64_of_Z (z : Z) : float64 := binary_normalize prec64 emax64 z 0 false.

(** The cast NumPy applies to a Python scalar that meets a float32 array. *)
Definition f32_of_f64 (x : float64) : float32 :=
  match x with
  | S754_finite s m e => binary_round prec32 emax32 s m e
  | _ => x
  end.

(** [astype(float32)] of an unsigned 8-bit sample. *)
Definition f32_of_uint8 (b : byte) : float32 := f32_of_Z (Z.of_N (Byte.to_N b)).

Definition f32_div (x y : float32) : float32 := SFdiv prec32 emax32 x y.

Definition f32_zero : float32 := S754_zero false.
Definition f32_one : float32 := f32_of_Z 1.

Definition f32_leb (x y : float32) : bool := SFleb x y.

(** Membership in the closed interval [0.0, 1.0], decided on the floats. *)
Definition in_unit_interval (x : float32) : bool := f32_leb f32_zero x && f32_leb x f32_one.

(** The value is a binary32 number: 24 significant bits, exponent in range. *)
Definition is_binary32 (x : float32) : bool := valid_binary prec32 emax32 x.

(** The rational a finite float stands for. *)
Definition f32_to_Q (x : float32) : Q :=
  match x with
  | S754_finite s m e => (inject_Z (if s then Zneg m else Zpos m) * Qpower 2 e)%Q
  | _ => 0%Q
  end.

End Float.
Import Float.

(** ** NumPy arrays and TensorFlow tensors: a shape and a row-major buffer *)

Record ndarray (A : Type) : Type := mk_ndarray { shape : list nat; data : list A }.

Definition numel (sh : list nat) : nat := fold_right Nat.mul 1 sh.

(** The buffer holds one element per index of the shape. *)
Definition well_shaped {A} (a : ndarray A) : Prop := length (data a) = numel (shape a).

(** ** Python exceptions and results *)

Inductive exn : Type :=
| FileNotFoundError (msg : string)
| ValueError (msg : string)
| HTTPException (status_code : nat) (detail : string)
| LibraryError (cls msg : string).

Definition string_of_nat (n : nat) : string := NilEmpty.string_of_uint (Nat.to_uint n).

(** [str(e)].  Starlette prints an [HTTPException] as "status: detail". *)
Definition str (e : exn) : string :=
  match e with
  | FileNotFoundError msg => msg
  | ValueError msg => msg
  | HTTPException status_code detail => (string_of_nat status_code ++ ": " ++ detail)%string
  | LibraryError _ msg => msg
  end.

Inductive result (A : Type) : Type :=
| Ok (a : A)
| Raise (e : exn).
Arguments Raise {A} e.

(** Sequencing of calls that may raise. *)
Definition and_then {A B} (r : result A) (k : A -> result B) : result B :=
  match r with
  | Ok a => k a
  | Raise e => Raise e
  end.

Notation "x <~ r ;; k" := (and_then r (fun x => k))
  (at level 61, r at next level, right associativity).

(** ** Module constants *)

Definition IMAGE_SIZE : nat * nat := (224, 224).
Definition NORMALIZATION_FACTOR : float64 := f64_of_Z 255.

Definition FLOWER_CLASSES : list string :=
  [ "dandelion"; "daisy"; "tulips"; "sunflowers"; "roses" ]%string.

(** ** NumPy operations used by the program *)

(** [a / c] for a float32 array and a Python float: the result stays float32. *)
Definition np_true_divide (a : ndarray float32) (c : float64) : ndarray float32 :=
  {| shape := shape a; data := map (fun x => f32_div x (f32_of_f64 c)) (data a) |}.

(** [np.expand_dims(a, axis)] for a non-negative axis. *)
Definition np_expand_dims {A} (a : ndarray A) (axis : nat) : result (ndarray A) :=
  if axis <=? length (shape a)
  then Ok {| shape := firstn axis (shape a) ++ 1 :: skipn axis (shape a); data := data a |}
  else Raise (LibraryError "AxisError" "axis is out of bounds").

(** ** Pillow images on the Python heap *)

Definition rgb : Type := byte * byte * byte.

Section Server.

(** Images in a mode other than RGB (1, L, LA, P, RGBA, CMYK, I, F, ...), as
    Pillow holds them, with the three methods the program may reach on them. *)
Variable other_image : Type.
Variable other_to_RGB : other_image -> result (nat * nat * (nat -> nat -> rgb)).
Variable other_resize : other_image -> nat * nat -> result other_image.
Variable other_asarray : other_image -> result (ndarray float32).

(** The resampling filter of [Image.resize] on an RGB image (bicubic by
    default): the 8-bit pixel it writes at (x, y) of the target. *)
Variable resample : nat * nat -> (nat -> nat -> rgb) -> nat * nat -> nat -> nat -> rgb.

(** An image is its size (width, height) and its pixel at column x, row y. *)
Inductive Image : Type :=
| RGBImage (size : nat * nat) (px : nat -> nat -> rgb)
| OtherImage (im : other_image).

(** [Image.open] on the uploaded bytes, with the decoding it starts.  The
    image it returns is a function of the bytes.  The text of a failure can
    name the stream object of the call, so two requests are compared only on
    uploads that decode. *)
Variable Image_open : list byte -> result Image.

Definition ref : Type := nat.
Definition heap : Type := list Image.

(** Computations that allocate on the heap and may raise. *)
Definition M (A : Type) : Type := heap -> result A * heap.

Definition ret {A} (a : A) : M A := fun h => (Ok a, h).

Definition bind {A B} (c : M A) (k : A -> M B) : M B :=
  fun h => match c h with
           | (Ok a, h') => k a h'
           | (Raise e, h') => (Raise e, h')
           end.

Definition raise {A} (e : exn) : M A := fun h => (Raise e, h).

Definition lift {A} (r : result A) : M A := fun h => (r, h).

(** [try: c  except Exception as e: handler e] *)
Definition try_except {A} (c : M A) (handler : exn -> M A) : M A :=
  fun h => match c h with
           | (Ok a, h') => (Ok a, h')
           | (Raise e, h') => handler e h'
           end.

Notation "x <- c ;; k" := (bind c (fun x => k))
  (at level 61, c at next level, right associativity).

Definition alloc (im : Image) : M ref := fun h => (Ok (length h), h ++ [im]).

(** Reading an object.  A Python reference always points to a live object;
    the error case only makes the function total. *)
Definition deref (r : ref) : M Image :=
  fun h => match nth_error h r with
           | Some im => (Ok im, h)
           | None => (Raise (LibraryError "ReferenceError" "no such object"), h)
           end.

(** The content of [im.convert("RGB")]: an RGB image is copied, any other
    mode goes through Pillow's converter, which raises when there is none. *)
Definition to_RGB (im : Image) : result (nat * nat * (nat -> nat -> rgb)) :=
  match im with
  | RGBImage size px => Ok (size, px)
  | OtherImage o => other_to_RGB o
  end.

(** [image.convert("RGB")]: always a new image object. *)
Definition Image_convert_RGB (image : ref) : M ref :=
  im <- deref image ;;
  c <- lift (to_RGB im) ;;
  alloc (RGBImage (fst c) (snd c)).

Definition size_eqb (a b : nat * nat) : bool :=
  (fst a =? fst b) && (snd a =? snd b).

(** The pixels of an RGB image after [resize(size)]. *)
Definition resized (size0 : nat * nat) (px : nat -> nat -> rgb) (size : nat * nat)
  : nat -> nat -> rgb :=
  if size_eqb size0 size then px else resample size0 px size.

(** [image.resize(size)]: a copy when the size is unchanged, an error for an
    empty target, else a new image of the requested size filled by the filter.
    A target too large for a C int or for the memory at hand makes Pillow
    raise as well; that limit is left out, so a run that returns here stands
    for a run of Pillow within its limits. *)
Definition Image_resize (image : ref) (size : nat * nat) : M ref :=
  im <- deref image ;;
  match im with
  | RGBImage size0 px =>
      if size_eqb size0 size then alloc (RGBImage size0 px)
      else if (fst size <? 1) || (snd size <? 1)
           then raise (ValueError "height and width must be > 0")
           else alloc (RGBImage size (resample size0 px size))
  | OtherImage o =>
      o' <- lift (other_resize o size) ;;
      alloc (OtherImage o')
  end.

(** The three samples of a pixel, as float32. *)
Definition samples (p : rgb) : list float32 :=
  let '(r, g, b) := p in [f32_of_uint8 r; f32_of_uint8 g; f32_of_uint8 b].

(** The (height, width, 3) array of an RGB image, row by row. *)
Definition rgb_array (size : nat * nat) (px : nat -> nat -> rgb) : ndarray float32 :=
  {| shape := [snd size; fst size; 3];
     data := flat_map (fun y => flat_map (fun x => samples (px x y)) (seq 0 (fst size)))
                      (seq 0 (snd size)) |}.

(** [np.array(image, dtype=np.float32)] *)
Definition np_array_float32 (image : ref) : M (ndarray float32) :=
  im <- deref image ;;
  match im with
  | RGBImage size px => ret (rgb_array size px)
  | OtherImage o => lift (other_asarray o)
  end.

(** [preprocess_image(image, target_size)]; a caller that leaves
    [target_size] out passes [IMAGE_SIZE]. *)
Definition preprocess_image (image : ref) (target_size : nat * nat) : M (ndarray float32) :=
  try_except
    (image <- Image_convert_RGB image ;;
     image <- Image_resize image target_size ;;
     img_array <- np_array_float32 image ;;
     let img_array := np_true_divide img_array NORMALIZATION_FACTOR in
     img_array <- lift (np_expand_dims img_array 0) ;;
     ret img_array)
    (fun e => raise (ValueError ("이미지 전처리 실패: " ++ str e)%string)).

(** ** The classifier and TensorFlow's operations on its output *)

(** What a call of the loaded model returns: a bare tensor, or a mapping
    from output names to tensors, in the order the model lists them.  The
    scores and the probabilities are read as real numbers; what the float32
    kernels of TensorFlow round, overflow or turn into NaN is outside the
    model, and the properties of [predict_image] rest on the shape and the
    order of these values, not on their digits. *)
Inductive model_output : Type :=
| OutTensor (t : ndarray R)
| OutDict (d : list (string * ndarray R)).

Definition Model : Type := ndarray float32 -> result model_output.

(** [predictions.keys()], as a list *)
Definition keys_of (predictions : model_output) : result (list string) :=
  match predictions with
  | OutDict d => Ok (map fst d)
  | OutTensor _ => Raise (LibraryError "AttributeError" "object has no attribute 'keys'")
  end.

(** [l[i]] on a Python list *)
Definition list_getitem {A} (l : list A) (i : nat) : result A :=
  match nth_error l i with
  | Some a => Ok a
  | None => Raise (LibraryError "IndexError" "list index out of range")
  end.

(** [predictions[key]] *)
Definition output_getitem (predictions : model_output) (key : string)
  : result (ndarray R) :=
  match predictions with
  | OutDict d =>
      match find (fun kv => String.eqb (fst kv) key) d with
      | Some kv => Ok (snd kv)
      | None => Raise (LibraryError "KeyError" key)
      end
  | OutTensor _ => Raise (LibraryError "TypeError" "invalid index")
  end.

(** [t[i]] on a tensor: the i-th slice along the first axis. *)
Definition tensor_getitem {A} (t : ndarray A) (i : nat) : result (ndarray A) :=
  match shape t with
  | [] => Raise (LibraryError "InvalidArgumentError" "index out of range: input has 0 dims")
  | n :: rest =>
      if i <? n
      then Ok {| shape := rest;
                 data := firstn (numel rest) (skipn (i * numel rest) (data t)) |}
      else Raise (LibraryError "InvalidArgumentError" "slice index out of bounds")
  end.

Definition Rsum (l : list R) : R := fold_right Rplus 0%R l.

Definition Rmax_list (l : list R) : R :=
  match l with
  | [] => 0%R
  | x :: l' => fold_left Rmax l' x
  end.

(** Softmax of one vector in exact arithmetic, in the order of the steps of
    TensorFlow's kernel: the maximum is subtracted before the exponential. *)
Definition softmax (logits : list R) : list R :=
  let m := Rmax_list logits in
  let e := map (fun s => exp (s - m)) logits in
  map (fun y => (y / Rsum e)%R) e.

(** The first [k] consecutive blocks of [n] elements. *)
Fixpoint chunks {A} (n k : nat) (l : list A) : list (list A) :=
  match k with
  | 0 => []
  | S k' => firstn n l :: chunks n k' (skipn n l)
  end.

(** [tf.nn.softmax(logits)]: softmax along the last axis. *)
Definition tf_nn_softmax (logits : ndarray R) : result (ndarray R) :=
  match rev (shape logits) with
  | [] => Raise (LibraryError "InvalidArgumentError" "logits must have >= 1 dimension")
  | n :: outer =>
      Ok {| shape := shape logits;
            data := concat (map softmax (chunks n (numel outer) (data logits))) |}
  end.

(** ** Python values: nested lists of floats, and ordered dicts *)

#[warnings="-register-all"] Inductive pyval : Type :=
| PyFloat (x : R)
| PyList (l : list pyval).

Fixpoint tolist_rec (sh : list nat) (d : list R) : pyval :=
  match sh with
  | [] => PyFloat (hd 0%R d)
  | n :: rest => PyList (map (tolist_rec rest) (chunks (numel rest) n d))
  end.

(** [a.tolist()] *)
Definition tolist (a : ndarray R) : pyval := tolist_rec (shape a) (data a).

(** [zip(names, v)]: pairs up to the shorter of the two. *)
Definition py_zip (names : list string) (v : pyval) : result (list (string * pyval)) :=
  match v with
  | PyList l => Ok (combine names l)
  | PyFloat _ => Raise (LibraryError "TypeError" "'float' object is not iterable")
  end.

(** A dict keeps its keys in insertion order; setting a key that is
    present keeps its place. *)
Definition pydict : Type := list (string * pyval).

Fixpoint dict_setitem (d : pydict) (k : string) (v : pyval) : pydict :=
  match d with
  | [] => [(k, v)]
  | (k', v') :: d' =>
      if String.eqb k' k then (k', v) :: d' else (k', v') :: dict_setitem d' k v
  end.

(** [dict(pairs)] *)
Definition dict (pairs : list (string * pyval)) : pydict :=
  fold_left (fun d kv => dict_setitem d (fst kv) (snd kv)) pairs [].

Definition keys (d : pydict) : list string := map fst d.

(** ** Prediction *)

Section Loaded.

(** The module-level [model], bound once when the module is imported. *)
Variable model : Model.

(** The body of the inner [try] of [predict_image]: the model call, the
    choice of the output and the softmax.  The log lines evaluate
    [predictions.keys()] and [outputs.numpy()], which the next lines
    evaluate as well. *)
Definition model_probabilities (preprocessed_img : ndarray float32)
  : result (ndarray R) :=
  predictions <~ model preprocessed_img ;;
  ks <~ keys_of predictions ;;
  output_key <~ list_getitem ks 0 ;;
  outputs <~ output_getitem predictions output_key ;;
  row <~ tensor_getitem outputs 0 ;;
  tf_nn_softmax row.

Definition predict_image (image : ref) : M pydict :=
  try_except
    (preprocessed_img <- preprocess_image image IMAGE_SIZE ;;
     probabilities <-
       try_except
         (lift (model_probabilities preprocessed_img))
         (fun prediction_error =>
            raise (HTTPException 500 "모델 예측에 실패했습니다.")) ;;
     pairs <- lift (py_zip FLOWER_CLASSES (tolist probabilities)) ;;
     let class_probabilities := dict pairs in
     ret class_probabilities)
    (fun e => raise (HTTPException 500 ("예측 실패: " ++ str e)%string)).

(** ** The routes *)

(** An upload: what [await file.read()] gives. *)
Record UploadFile : Type := { file_read : result (list byte) }.

(** What a handler returns to FastAPI. *)
Inductive content : Type :=
| Text (s : string)
| Predictions (result : pydict)
| Detail (msg : string).

Definition get_root : M content :=
  ret (Text "꽃 이미지 분류 API에 오신 것을 환영합니다!").

Definition predict_flower (file : UploadFile) : M content :=
  try_except
    (contents <- lift (file_read file) ;;
     opened <- lift (Image_open contents) ;;
     opened <- alloc opened ;;
     image <- Image_convert_RGB opened ;;
     result <- predict_image image ;;
     ret (Predictions result))
    (fun e => raise (HTTPException 500 (str e))).

End Loaded.

(** ** Importing the module and serving *)

(** The files the process can see, by path. *)
Definition FileSystem : Type := string -> option (list byte).

(** [tf.keras.models.load_model] on the content of the model file. *)
Variable keras_load_model : list byte -> result Model.

Definition load_model (fs : FileSystem) : result Model :=
  let model_path := "./base_model.keras"%string in
  match fs model_path with
  | None => Raise (FileNotFoundError ("Model file not found: " ++ model_path)%string)
  | Some artifact => keras_load_model artifact
  end.

(** The application object once the module body has run to its end. *)
Record App : Type := { app_model : Model; app_routes : list (string * string) }.

(** The module body, top to bottom; an exception ends the import.
    - [app = FastAPI(...)], [app.add_middleware(...)]: no route yet;
    - [model = load_model()];
    - [@app.get("/")], then [@app.post("/predict")]. *)
Definition import_module (fs : FileSystem) : result App :=
  let routes := [] in
  model <~ load_model fs ;;
  let routes := routes ++ [("GET", "/")%string] in
  let routes := routes ++ [("POST", "/predict")%string] in
  Ok {| app_model := model; app_routes := routes |}.

Inductive request : Type :=
| GET (path : string)
| POST (path : string) (file : UploadFile).

Inductive response : Type :=
| Response (status : nat) (body : content).

(** FastAPI turns what a handler returns or raises into a response. *)
Definition respond (r : result content) : response :=
  match r with
  | Ok c => Response 200 c
  | Raise (HTTPException status_code detail) => Response status_code (Detail detail)
  | Raise _ => Response 500 (Text "Internal Server Error")
  end.

Definition has_route (app : App) (method path : string) : bool :=
  existsb (fun r => String.eqb (fst r) method && String.eqb (snd r) path) (app_routes app).

Definition has_path (app : App) (path : string) : bool :=
  existsb (fun r => String.eqb (snd r) path) (app_routes app).

(** No route for the path is 404, a route under another method is 405. *)
Definition no_route (app : App) (path : string) : M content :=
  if has_path app path then raise (HTTPException 405 "Method Not Allowed")
  else raise (HTTPException 404 "Not Found").

Definition dispatch (app : App) (req : request) : M content :=
  match req with
  | GET path =>
      if has_route app "GET" path then get_root else no_route app path
  | POST path file =>
      if has_route app "POST" path then predict_flower (app_model app) file
      else no_route app path
  end.

(** The process: it stopped while importing the module, or it serves with
    the application and the heap it has. *)
Inductive process : Type :=
| Aborted (e : exn)
| Serving (app : App) (h : heap).

Definition start (fs : FileSystem) : process :=
  match import_module fs with
  | Raise e => Aborted e
  | Ok app => Serving app []
  end.

Definition handle (p : process) (req : request) : process * option response :=
  match p with
  | Aborted e => (Aborted e, None)
  | Serving app h =>
      let '(r, h') := dispatch app req h in
      (Serving app h', Some (respond r))
  end.

(** The responses to a sequence of requests, in order. *)
Fixpoint run (p : process) (reqs : list request) : list response :=
  match reqs with
  | [] => []
  | req :: reqs' =>
      let '(p', r) := handle p req in
      match r with
      | Some resp => resp :: run p' reqs'
      | None => run p' reqs'
      end
  end.

(** ** Readings used in the statements *)

(** A sample divided by 255.0, the element [preprocess_image] stores. *)
Definition normalized_sample (b : byte) : float32 :=
  f32_div (f32_of_uint8 b) (f32_of_f64 NORMALIZATION_FACTOR).

(** The tensor [preprocess_image] builds from the pixels it ends up with:
    the (height, width, 3) samples divided by 255.0 under a batch axis. *)
Definition normalized (size : nat * nat) (px : nat -> nat -> rgb) : ndarray float32 :=
  {| shape := 1 :: shape (rgb_array size px);
     data := data (np_true_divide (rgb_array size px) NORMALIZATION_FACTOR) |}.

(** The 8-bit samples of an RGB image in the order NumPy reads them: row by
    row, pixel by pixel, red then green then blue. *)
Definition rgb_samples (size : nat * nat) (px : nat -> nat -> rgb) : list byte :=
  flat_map (fun y => flat_map (fun x => let '(r, g, b) := px x y in [r; g; b])
                              (seq 0 (fst size)))
           (seq 0 (snd size)).

(** The stored element [x] is the quotient of the sample [b] by 255 up to
    the rounding of binary32: in the rationals they differ by at most
    2^-25, half a unit in the last place of 1.0. *)
Definition rounds_quotient (x : float32) (b : byte) : Prop :=
  (Qabs (f32_to_Q x - inject_Z (Z.of_N (Byte.to_N b)) / 255) <= 1 # 2 ^ 25)%Q.

Definition preprocess_error (cause : string) : exn :=
  ValueError ("이미지 전처리 실패: " ++ cause)%string.

(** What [preprocess_image] returns, as a function of the object its argument
    points to ([None] for no object) and of the target size. *)
Definition preprocess_value (obj : option Image) (target_size : nat * nat)
  : result (ndarray float32) :=
  match obj with
  | None => Raise (preprocess_error "no such object")
  | Some im =>
      match to_RGB im with
      | Raise e => Raise (preprocess_error (str e))
      | Ok c =>
          if size_eqb (fst c) target_size then Ok (normalized (fst c) (snd c))
          else if (fst target_size <? 1) || (snd target_size <? 1)
               then Raise (preprocess_error "height and width must be > 0")
               else Ok (normalized target_size (resample (fst c) (snd c) target_size))
      end
  end.

(** The objects a call of [preprocess_image] adds to the heap: the converted
    image, then the resized one. *)
Definition preprocess_allocs (obj : option Image) (target_size : nat * nat) : heap :=
  match obj with
  | None => []
  | Some im =>
      match to_RGB im with
      | Raise e => []
      | Ok c =>
          if size_eqb (fst c) target_size
          then [RGBImage (fst c) (snd c); RGBImage (fst c) (snd c)]
          else if (fst target_size <? 1) || (snd target_size <? 1)
               then [RGBImage (fst c) (snd c)]
               else [RGBImage (fst c) (snd c);
                     RGBImage target_size (resample (fst c) (snd c) target_size)]
      end
  end.

Definition prediction_error (cause : string) : exn :=
  HTTPException 500 ("예측 실패: " ++ cause)%string.

(** The probability of each score as the specification writes it:
    p_i = exp(s_i) / sum_j exp(s_j). *)
Definition softmax_spec (scores : list R) : list R :=
  map (fun s => (exp s / Rsum (map exp scores))%R) scores.

(** The ways a call of the model fails to give probabilities: the call
    raises (a numeric fault, a rejected input shape), the result has no
    keys, it has no output at all, or the chosen output has too few axes or
    an empty batch axis. *)
Inductive invocation_failure : result model_output -> Prop :=
| failure_raised (e : exn) :
    invocation_failure (Raise e)
| failure_not_keyed (t : ndarray R) :
    invocation_failure (Ok (OutTensor t))
| failure_no_output :
    invocation_failure (Ok (OutDict []))
| failure_scalar (k : string) (o : ndarray R) (d : list (string * ndarray R)) :
    shape o = [] -> invocation_failure (Ok (OutDict ((k, o) :: d)))
| failure_empty_batch (k : string) (o : ndarray R) (d : list (string * ndarray R))
    (rest : list nat) :
    shape o = 0 :: rest -> invocation_failure (Ok (OutDict ((k, o) :: d)))
| failure_no_class_axis (k : string) (o : ndarray R) (d : list (string * ndarray R))
    (n : nat) :
    shape o = [S n] -> invocation_failure (Ok (OutDict ((k, o) :: d))).

(** A model output cut down to its first named output. *)
Definition first_output_only (r : result model_output) : result model_output :=
  match r with
  | Ok (OutDict (kv :: _)) => Ok (OutDict [kv])
  | _ => r
  end.

(** The model artifact is missing, or the loader rejects it. *)
Definition artifact_unusable (fs : FileSystem) : Prop :=
  fs "./base_model.keras"%string = None \/
  exists artifact e,
    fs "./base_model.keras"%string = Some artifact /\ keras_load_model artifact = Raise e.

(** The value of the element stored for the sample [n]. *)
Definition sample_value (n : nat) : Q :=
  f32_to_Q (f32_div (f32_of_Z (Z.of_nat n)) (f32_of_f64 NORMALIZATION_FACTOR)).

(** Each of the samples 1 to 255 gets a larger value than the one before. *)
Definition adjacent_increasing : bool :=
  forallb (fun n => negb (Qle_bool (sample_value (S n)) (sample_value n))) (seq 0 255).

(** A tensor the model may be called with: the shape of one 224 x 224 RGB
    picture, one element per index, every element a binary32 in [0.0, 1.0]. *)
Definition valid_input (t : ndarray float32) : Prop :=
  shape t = [1; 224; 224; 3] /\
  well_shaped t /\
  Forall (fun x => is_binary32 x = true /\ in_unit_interval x = true) (data t).

(** What [predict_image] returns, as a function of the model and of the
    object its argument points to. *)
Definition predict_value (model : Model) (obj : option Image) : result pydict :=
  match preprocess_value obj IMAGE_SIZE with
  | Raise e => Raise (prediction_error (str e))
  | Ok t =>
      match model_probabilities model t with
      | Raise _ => Raise (prediction_error (str (HTTPException 500 "모델 예측에 실패했습니다.")))
      | Ok probabilities =>
          match py_zip FLOWER_CLASSES (tolist probabilities) with
          | Ok pairs => Ok (dict pairs)
          | Raise e => Raise (prediction_error (str e))
          end
      end
  end.

(** What [predict_flower] returns, as a function of the model and of the
    upload. *)
Definition flower_value (model : Model) (file : UploadFile) : result content :=
  match file_read file with
  | Raise e => Raise (HTTPException 500 (str e))
  | Ok contents =>
      match Image_open contents with
      | Raise e => Raise (HTTPException 500 (str e))
      | Ok opened =>
          match to_RGB opened with
          | Raise e => Raise (HTTPException 500 (str e))
          | Ok c =>
              match predict_value model (Some (RGBImage (fst c) (snd c))) with
              | Ok mapping => Ok (Predictions mapping)
              | Raise e => Raise (HTTPException 500 (str e))
              end
          end
      end
  end.

(** * Properties *)

(** ** Float32 normalisation *)

Lemma normalized_sample_in_unit_interval (b : byte) :
  in_unit_interval (normalized_sample b) = true.
Proof. destruct b; vm_compute; reflexivity. Qed.

Lemma normalized_sample_is_binary32 (b : byte) :
  is_binary32 (normalized_sample b) = true.
Proof. destruct b; vm_compute; reflexivity. Qed.

(** The stored element is the quotient k / 255 rounded to binary32: it is
    off by at most half a unit in the last place of 1.0. *)
Lemma normalized_sample_rounds_quotient (b : byte) :
  Qle_bool
    (Qabs (f32_to_Q (normalized_sample b) - inject_Z (Z.of_N (Byte.to_N b)) / 255))
    (1 # 2 ^ 25) = true.
Proof. destruct b; vm_compute; reflexivity. Qed.

Lemma normalized_sample_accuracy (b : byte) :
  rounds_quotient (normalized_sample b) b.
Proof. apply Qle_bool_iff, normalized_sample_rounds_quotient. Qed.

Lemma normalized_sample_ends :
  normalized_sample "000"%byte = f32_zero /\ normalized_sample "255"%byte = f32_one.
Proof. split; reflexivity. Qed.

Lemma length_flat_map_const {A B} (f : A -> list B) (k : nat) (l : list A) :
  (forall a, length (f a) = k) -> length (flat_map f l) = length l * k.
Proof.
  intros Hf. induction l as [|a l IH]; simpl.
  - reflexivity.
  - rewrite length_app, Hf, IH. reflexivity.
Qed.

Lemma length_samples (p : rgb) : length (samples p) = 3.
Proof. destruct p as [[r g] b]. reflexivity. Qed.

Lemma rgb_array_well_shaped (size : nat * nat) (px : nat -> nat -> rgb) :
  well_shaped (rgb_array size px).
Proof.
  unfold well_shaped, rgb_array, numel. simpl.
  rewrite length_flat_map_const with (k := fst size * 3).
  - rewrite length_seq. lia.
  - intros y. rewrite length_flat_map_const with (k := 3).
    + rewrite length_seq. reflexivity.
    + intros x. apply length_samples.
Qed.

Lemma normalized_well_shaped (size : nat * nat) (px : nat -> nat -> rgb) :
  well_shaped (normalized size px).
Proof.
  pose proof (rgb_array_well_shaped size px) as H.
  unfold well_shaped in *. unfold normalized, np_true_divide.
  cbn [shape data].
  rewrite length_map, H. unfold numel. simpl. lia.
Qed.

(** Every element of the tensor is a sample divided by 255.0. *)
Lemma normalized_elements (size : nat * nat) (px : nat -> nat -> rgb) :
  Forall (fun x => exists b, x = normalized_sample b) (data (normalized size px)).
Proof.
  unfold normalized, np_true_divide, rgb_array. simpl data.
  apply Forall_map, Forall_flat_map, Forall_forall. intros y _.
  apply Forall_flat_map, Forall_forall. intros x _.
  destruct (px x y) as [[r g] b]. simpl.
  repeat constructor; eexists; reflexivity.
Qed.

Lemma normalized_in_unit_interval (size : nat * nat) (px : nat -> nat -> rgb) :
  Forall (fun x => is_binary32 x = true /\ in_unit_interval x = true)
         (data (normalized size px)).
Proof.
  eapply Forall_impl; [|apply normalized_elements].
  intros x [b ->]. split.
  - apply normalized_sample_is_binary32.
  - apply normalized_sample_in_unit_interval.
Qed.

Lemma map_over_flat_map {A B C} (f : B -> C) (g : A -> list B) (l : list A) :
  map f (flat_map g l) = flat_map (fun a => map f (g a)) l.
Proof.
  induction l as [|a l IH]; simpl; [reflexivity|].
  rewrite map_app, IH. reflexivity.
Qed.

(** The buffer of the tensor is the samples of the image, in NumPy's order,
    each divided by 255.0. *)
Lemma normalized_data (size : nat * nat) (px : nat -> nat -> rgb) :
  data (normalized size px) = map normalized_sample (rgb_samples size px).
Proof.
  unfold normalized, np_true_divide, rgb_array, rgb_samples. cbn [data].
  rewrite !map_over_flat_map. apply flat_map_ext. intros y.
  rewrite !map_over_flat_map. apply flat_map_ext. intros x.
  destruct (px x y) as [[r g] b]. reflexivity.
Qed.

Lemma normalized_accuracy (size : nat * nat) (px : nat -> nat -> rgb) :
  Forall2 rounds_quotient (data (normalized size px)) (rgb_samples size px).
Proof.
  rewrite normalized_data.
  induction (rgb_samples size px) as [|b l IH]; simpl; constructor.
  - apply normalized_sample_accuracy.
  - exact IH.
Qed.

Lemma normalized_steps (size : nat * nat) (px : nat -> nat -> rgb) :
  np_expand_dims (np_true_divide (rgb_array size px) NORMALIZATION_FACTOR) 0
  = Ok (normalized size px).
Proof. reflexivity. Qed.

(** ** Running the heap operations *)

Lemma nth_error_alloc (h : heap) (im : Image) :
  nth_error (h ++ [im]) (length h) = Some im.
Proof. rewrite nth_error_app2, Nat.sub_diag by lia. reflexivity. Qed.

Lemma nth_error_keep (h extra : heap) (r : ref) (im : Image) :
  nth_error h r = Some im -> nth_error (h ++ extra) r = Some im.
Proof.
  intros H. rewrite nth_error_app1; [exact H|].
  apply nth_error_Some. congruence.
Qed.

Lemma Image_convert_RGB_run (image : ref) (h : heap) :
  Image_convert_RGB image h =
  match nth_error h image with
  | None => (Raise (LibraryError "ReferenceError" "no such object"), h)
  | Some im =>
      match to_RGB im with
      | Ok c => (Ok (length h), h ++ [RGBImage (fst c) (snd c)])
      | Raise e => (Raise e, h)
      end
  end.
Proof.
  unfold Image_convert_RGB, bind, deref, lift, alloc.
  destruct (nth_error h image) as [im|]; [|reflexivity].
  destruct (to_RGB im); reflexivity.
Qed.

Lemma Image_resize_run_RGB (image : ref) (size : nat * nat) (h : heap)
  (size0 : nat * nat) (px : nat -> nat -> rgb) :
  nth_error h image = Some (RGBImage size0 px) ->
  Image_resize image size h =
  if size_eqb size0 size then (Ok (length h), h ++ [RGBImage size0 px])
  else if (fst size <? 1) || (snd size <? 1)
       then (Raise (ValueError "height and width must be > 0"), h)
       else (Ok (length h), h ++ [RGBImage size (resample size0 px size)]).
Proof.
  intros H. unfold Image_resize, bind, deref. rewrite H.
  destruct (size_eqb size0 size); [reflexivity|].
  destruct ((fst size <? 1) || (snd size <? 1)); reflexivity.
Qed.

Lemma np_array_float32_run_RGB (image : ref) (h : heap)
  (size : nat * nat) (px : nat -> nat -> rgb) :
  nth_error h image = Some (RGBImage size px) ->
  np_array_float32 image h = (Ok (rgb_array size px), h).
Proof. intros H. unfold np_array_float32, bind, deref. rewrite H. reflexivity. Qed.

(** [preprocess_image] returns what [preprocess_value] reads off the object
    it is given, and adds the objects of [preprocess_allocs] to the heap. *)
Lemma preprocess_image_run (image : ref) (target_size : nat * nat) (h : heap) :
  preprocess_image image target_size h
  = (preprocess_value (nth_error h image) target_size,
     h ++ preprocess_allocs (nth_error h image) target_size).
Proof.
  unfold preprocess_image, try_except, bind at 1.
  rewrite Image_convert_RGB_run. unfold preprocess_value, preprocess_allocs.
  destruct (nth_error h image) as [im|]; [|rewrite app_nil_r; reflexivity].
  destruct (to_RGB im) as [c|e]; [|rewrite app_nil_r; reflexivity].
  set (h1 := h ++ [RGBImage (fst c) (snd c)]).
  unfold bind at 1.
  rewrite (@Image_resize_run_RGB (length h) target_size h1 (fst c) (snd c))
    by apply nth_error_alloc.
  destruct (size_eqb (fst c) target_size).
  - unfold bind at 1.
    rewrite (@np_array_float32_run_RGB (length h1) _ (fst c) (snd c))
      by apply nth_error_alloc.
    unfold bind, lift, ret. rewrite normalized_steps.
    unfold h1. rewrite <- app_assoc. reflexivity.
  - destruct ((fst target_size <? 1) || (snd target_size <? 1)).
    + reflexivity.
    + unfold bind at 1.
      rewrite (@np_array_float32_run_RGB (length h1) _ target_size
                 (resample (fst c) (snd c) target_size))
        by apply nth_error_alloc.
      unfold bind, lift, ret. rewrite normalized_steps.
      unfold h1. rewrite <- app_assoc. reflexivity.
Qed.

Lemma preprocess_image_value (image : ref) (target_size : nat * nat) (h : heap) :
  fst (preprocess_image image target_size h)
  = preprocess_value (nth_error h image) target_size.
Proof. rewrite preprocess_image_run. reflexivity. Qed.

(** The object a call reads is still there, unchanged, after the call. *)
Lemma preprocess_image_keeps (image : ref) (target_size : nat * nat) (h : heap) :
  nth_error (snd (preprocess_image image target_size h)) image = nth_error h image.
Proof.
  rewrite preprocess_image_run. simpl.
  destruct (nth_error h image) as [im|] eqn:Him.
  - apply nth_error_keep. exact Him.
  - simpl. rewrite app_nil_r. exact Him.
Qed.

Lemma size_eqb_eq (a b : nat * nat) : size_eqb a b = true -> a = b.
Proof.
  destruct a as [a1 a2], b as [b1 b2]. unfold size_eqb. simpl.
  intros H. apply andb_prop in H. destruct H as [H1 H2].
  apply Nat.eqb_eq in H1, H2. congruence.
Qed.

(** C1: for every image on the heap that converts to RGB, whatever its mode
    and its width and height, [preprocess_image] with the default target
    size returns a tensor of shape (1, 224, 224, 3) holding one float32 per
    index; the tensor is the RGB samples of the image resized to (224, 224),
    each divided by 255.0, under a new batch axis.  Element by element, in
    NumPy's order, it holds the 8-bit sample [b] of the resized image as the
    binary32 quotient [normalized_sample b], which is k / 255 up to 2^-25
    for the intensity k of [b]; and every element is a binary32 number in
    the closed interval [0.0, 1.0]. *)
Theorem preprocess_image_tensor (h : heap) (image : ref) (im : Image)
  (c : nat * nat * (nat -> nat -> rgb)) :
  nth_error h image = Some im ->
  to_RGB im = Ok c ->
  exists t h',
    preprocess_image image IMAGE_SIZE h = (Ok t, h') /\
    shape t = [1; 224; 224; 3] /\
    well_shaped t /\
    np_expand_dims
      (np_true_divide (rgb_array IMAGE_SIZE (resized (fst c) (snd c) IMAGE_SIZE))
         NORMALIZATION_FACTOR) 0 = Ok t /\
    Forall (fun x => is_binary32 x = true /\ in_unit_interval x = true) (data t) /\
    data t = map normalized_sample
                 (rgb_samples IMAGE_SIZE (resized (fst c) (snd c) IMAGE_SIZE)) /\
    Forall2 rounds_quotient (data t)
            (rgb_samples IMAGE_SIZE (resized (fst c) (snd c) IMAGE_SIZE)).
Proof.
  intros Him Hc.
  pose proof (preprocess_image_run image IMAGE_SIZE h) as Hrun.
  set (extra := preprocess_allocs (nth_error h image) IMAGE_SIZE) in Hrun.
  rewrite Him in Hrun. unfold preprocess_value in Hrun. rewrite Hc in Hrun.
  unfold resized.
  destruct (size_eqb (fst c) IMAGE_SIZE) eqn:Hsize.
  - apply size_eqb_eq in Hsize.
    exists (normalized (fst c) (snd c)), (h ++ extra).
    split; [exact Hrun|]. rewrite Hsize. split; [reflexivity|].
    split; [apply normalized_well_shaped|].
    split; [apply normalized_steps|].
    split; [apply normalized_in_unit_interval|].
    split; [apply normalized_data|apply normalized_accuracy].
  - change ((fst IMAGE_SIZE <? 1) || (snd IMAGE_SIZE <? 1)) with false in Hrun.
    exists (normalized IMAGE_SIZE (resample (fst c) (snd c) IMAGE_SIZE)), (h ++ extra).
    split; [exact Hrun|]. split; [reflexivity|].
    split; [apply normalized_well_shaped|].
    split; [apply normalized_steps|].
    split; [apply normalized_in_unit_interval|].
    split; [apply normalized_data|apply normalized_accuracy].
Qed.

(** C6: preprocessing is deterministic.  Two calls of [preprocess_image]
    on the same image object with the same target size return the same
    result, identical tensors included, whatever else the heap holds at the
    time of each call: no state besides the input reaches the result. *)
Theorem preprocess_image_deterministic (image : ref) (target_size : nat * nat)
  (h1 h2 : heap) :
  nth_error h1 image = nth_error h2 image ->
  fst (preprocess_image image target_size h1)
  = fst (preprocess_image image target_size h2).
Proof.
  intros Hsame. rewrite !preprocess_image_value, Hsame. reflexivity.
Qed.

(** In particular a second call, made in the heap the first call left. *)
Corollary preprocess_image_twice (image : ref) (target_size : nat * nat) (h : heap) :
  fst (preprocess_image image target_size (snd (preprocess_image image target_size h)))
  = fst (preprocess_image image target_size h).
Proof.
  rewrite !preprocess_image_value, preprocess_image_keeps. reflexivity.
Qed.

(** C10: the conversion to RGB in [preprocess_image] is redundant after the
    one in the [/predict] handler.  When [image.convert("RGB")] succeeds and
    gives [image'], preprocessing [image'] returns what preprocessing the
    original [image] returns. *)
Theorem convert_RGB_then_preprocess (image image' : ref) (target_size : nat * nat)
  (h h' : heap) :
  Image_convert_RGB image h = (Ok image', h') ->
  fst (preprocess_image image' target_size h')
  = fst (preprocess_image image target_size h).
Proof.
  intros Hconv. rewrite Image_convert_RGB_run in Hconv.
  rewrite !preprocess_image_value.
  destruct (nth_error h image) as [im|]; [|discriminate].
  unfold preprocess_value at 2.
  destruct (to_RGB im) as [c|e]; [|discriminate].
  injection Hconv as <- <-.
  rewrite nth_error_alloc. reflexivity.
Qed.

(** Converting twice gives an image equal to converting once. *)
Lemma to_RGB_idempotent (im : Image) (c : nat * nat * (nat -> nat -> rgb)) :
  to_RGB im = Ok c -> to_RGB (RGBImage (fst c) (snd c)) = Ok c.
Proof. intros _. destruct c. reflexivity. Qed.

(** ** Softmax *)

Lemma Rsum_map_exp_nonneg (l : list R) : (0 <= Rsum (map exp l))%R.
Proof.
  induction l as [|x l IH]; simpl.
  - lra.
  - pose proof (exp_pos x). lra.
Qed.

Lemma Rsum_map_exp_pos (l : list R) : l <> [] -> (0 < Rsum (map exp l))%R.
Proof.
  destruct l as [|x l]; [congruence|]. intros _. simpl.
  pose proof (exp_pos x). pose proof (Rsum_map_exp_nonneg l). lra.
Qed.

Lemma Rsum_map_div (f : R -> R) (c : R) (l : list R) :
  Rsum (map (fun s => (f s / c)%R) l) = (Rsum (map f l) / c)%R.
Proof.
  induction l as [|x l IH]; simpl.
  - unfold Rdiv. ring.
  - rewrite IH. unfold Rdiv. ring.
Qed.

Lemma exp_shift (s m : R) : exp (s - m) = (exp s / exp m)%R.
Proof.
  unfold Rminus, Rdiv. rewrite exp_plus, exp_Ropp. reflexivity.
Qed.

(** Subtracting any constant from every score before the exponential, as
    the stable formulation does with the maximum, leaves the ratios as they
    are. *)
Lemma softmax_shifted (m : R) (l : list R) :
  let e := map (fun s => exp (s - m)) l in
  map (fun y => (y / Rsum e)%R) e = softmax_spec l.
Proof.
  intros e. unfold softmax_spec. subst e. rewrite map_map.
  destruct l as [|x0 l0] eqn:El; [reflexivity|]. rewrite <- El.
  assert (Hl : l <> []) by (rewrite El; discriminate).
  assert (Hsum : Rsum (map (fun s => exp (s - m)) l) = (Rsum (map exp l) / exp m)%R).
  { rewrite <- Rsum_map_div. f_equal. apply map_ext. intros s. apply exp_shift. }
  rewrite Hsum. apply map_ext. intros s. rewrite exp_shift.
  pose proof (exp_pos m). pose proof (Rsum_map_exp_pos Hl).
  field. split; lra.
Qed.

Lemma fold_left_Rmax_ge_init (l : list R) (a : R) : (a <= fold_left Rmax l a)%R.
Proof.
  revert a. induction l as [|x l IH]; intros a; simpl.
  - lra.
  - pose proof (IH (Rmax a x)). pose proof (Rmax_l a x). lra.
Qed.

Lemma fold_left_Rmax_ge_elem (l : list R) (a s : R) :
  In s l -> (s <= fold_left Rmax l a)%R.
Proof.
  revert a. induction l as [|x l IH]; intros a; simpl.
  - intros [].
  - intros [->|Hin].
    + pose proof (fold_left_Rmax_ge_init l (Rmax a s)). pose proof (Rmax_r a s). lra.
    + apply IH. exact Hin.
Qed.

(** [Rmax_list] is an upper bound of the scores, so no exponent of the
    stable formulation is positive. *)
Lemma Rmax_list_upper (l : list R) (s : R) : In s l -> (s <= Rmax_list l)%R.
Proof.
  destruct l as [|x l]; simpl.
  - intros [].
  - intros [->|Hin].
    + apply fold_left_Rmax_ge_init.
    + apply fold_left_Rmax_ge_elem. exact Hin.
Qed.

Lemma softmax_eq_spec (l : list R) : softmax l = softmax_spec l.
Proof. unfold softmax. apply softmax_shifted. Qed.

Lemma softmax_spec_shift_invariant (c : R) (l : list R) :
  softmax_spec (map (fun s => (s - c)%R) l) = softmax_spec l.
Proof.
  rewrite <- (softmax_shifted c l). cbv zeta.
  unfold softmax_spec. rewrite !map_map. reflexivity.
Qed.

Lemma softmax_spec_sum (l : list R) : l <> [] -> Rsum (softmax_spec l) = 1%R.
Proof.
  intros Hl. unfold softmax_spec. rewrite Rsum_map_div.
  pose proof (Rsum_map_exp_pos Hl). field. lra.
Qed.

Lemma exp_le_Rsum (s : R) (l : list R) : In s l -> (exp s <= Rsum (map exp l))%R.
Proof.
  induction l as [|x l IH]; simpl; [intros []|].
  intros [->|Hin].
  - pose proof (Rsum_map_exp_nonneg l). lra.
  - pose proof (exp_pos x). specialize (IH Hin). lra.
Qed.

Lemma softmax_spec_range (l : list R) :
  Forall (fun p => (0 <= p <= 1)%R) (softmax_spec l).
Proof.
  unfold softmax_spec. apply Forall_map, Forall_forall. intros s Hin.
  assert (Hl : l <> []) by (destruct l; [destruct Hin|discriminate]).
  pose proof (Rsum_map_exp_pos Hl) as Hpos.
  pose proof (exp_pos s) as Hs. pose proof (exp_le_Rsum s l Hin) as Hle.
  split.
  - apply Rlt_le, Rdiv_lt_0_compat; assumption.
  - apply Rmult_le_reg_r with (r := Rsum (map exp l)); [assumption|].
    unfold Rdiv. rewrite Rmult_assoc, Rinv_l by lra. lra.
Qed.

Lemma tf_nn_softmax_vector (scores : list R) :
  tf_nn_softmax {| shape := [length scores]; data := scores |}
  = Ok {| shape := [length scores]; data := softmax_spec scores |}.
Proof.
  unfold tf_nn_softmax. simpl. rewrite firstn_all, app_nil_r, softmax_eq_spec.
  reflexivity.
Qed.

(** In exact arithmetic, for every score vector of length 5, the softmax
    with the maximum subtracted before the exponential (so that no exponent
    is positive) gives p_i = exp(s_i) / sum_j exp(s_j); each p_i lies in
    [0, 1], they sum to 1, and subtracting any constant from every score
    does not change them.  This is the formula the float32 kernel of
    [tf.nn.softmax] approximates; its rounding is not described here. *)
Lemma softmax_exact (scores : list R) :
  length scores = 5 ->
  tf_nn_softmax {| shape := [5]; data := scores |}
  = Ok {| shape := [5]; data := softmax_spec scores |} /\
  softmax scores = softmax_spec scores /\
  Forall (fun p => (0 <= p <= 1)%R) (softmax_spec scores) /\
  Rsum (softmax_spec scores) = 1%R /\
  (Rabs (Rsum (softmax_spec scores) - 1) <= 1 / 1000000)%R /\
  (forall s, In s scores -> (s - Rmax_list scores <= 0)%R) /\
  forall c, softmax_spec (map (fun s => (s - c)%R) scores) = softmax_spec scores.
Proof.
  intros Hlen.
  assert (Hne : scores <> []) by (destruct scores; [discriminate|discriminate]).
  split; [rewrite <- Hlen; apply tf_nn_softmax_vector|].
  split; [apply softmax_eq_spec|].
  split; [apply softmax_spec_range|].
  split; [apply softmax_spec_sum; exact Hne|].
  split.
  - rewrite (softmax_spec_sum Hne).
    replace (1 - 1)%R with 0%R by ring. rewrite Rabs_R0. lra.
  - split.
    + intros s Hin. pose proof (Rmax_list_upper scores s Hin). lra.
    + intros c. apply softmax_spec_shift_invariant.
Qed.

(** ** Prediction *)

(** [predict_image], one case per way through its two [try] blocks. *)
Lemma predict_image_unfold (model : Model) (image : ref) (h : heap) :
  predict_image model image h =
  match preprocess_image image IMAGE_SIZE h with
  | (Raise e, h1) => (Raise (prediction_error (str e)), h1)
  | (Ok t, h1) =>
      match model_probabilities model t with
      | Raise _ =>
          (Raise (prediction_error (str (HTTPException 500 "모델 예측에 실패했습니다."))), h1)
      | Ok probabilities =>
          match py_zip FLOWER_CLASSES (tolist probabilities) with
          | Ok pairs => (Ok (dict pairs), h1)
          | Raise e => (Raise (prediction_error (str e)), h1)
          end
      end
  end.
Proof.
  unfold predict_image, try_except, bind at 1.
  destruct (preprocess_image image IMAGE_SIZE h) as [[t|e] h1]; [|reflexivity].
  unfold bind, try_except, lift, raise, ret.
  destruct (model_probabilities model t) as [probabilities|e]; [|reflexivity].
  destruct (py_zip FLOWER_CLASSES (tolist probabilities)); reflexivity.
Qed.

(** Whatever [predict_image] raises is an [HTTPException] with status 500. *)
Lemma predict_image_raises_http_500 (model : Model) (image : ref) (h : heap) (e : exn) :
  fst (predict_image model image h) = Raise e ->
  exists detail, e = HTTPException 500 detail.
Proof.
  rewrite predict_image_unfold.
  destruct (preprocess_image image IMAGE_SIZE h) as [[t|e0] h1]; simpl.
  - destruct (model_probabilities model t) as [probabilities|e1]; simpl.
    + destruct (py_zip FLOWER_CLASSES (tolist probabilities)); simpl;
        intros H; inversion H; eexists; reflexivity.
    + intros H; inversion H; eexists; reflexivity.
  - intros H; inversion H; eexists; reflexivity.
Qed.

Lemma find_first_key (k : string) (o : ndarray R) (d : list (string * ndarray R)) :
  find (fun kv => String.eqb (fst kv) k) ((k, o) :: d) = Some (k, o).
Proof. simpl. rewrite String.eqb_refl. reflexivity. Qed.

(** On a keyed result the first output, and nothing else, is used. *)
Lemma model_probabilities_first (model : Model) (t : ndarray float32)
  (k : string) (o : ndarray R) (d : list (string * ndarray R)) :
  model t = Ok (OutDict ((k, o) :: d)) ->
  model_probabilities model t = (row <~ tensor_getitem o 0 ;; tf_nn_softmax row).
Proof.
  intros Hm. unfold model_probabilities. rewrite Hm.
  unfold and_then at 1. unfold keys_of. unfold and_then at 1.
  unfold list_getitem. simpl nth_error. unfold and_then at 1.
  unfold output_getitem. rewrite find_first_key. reflexivity.
Qed.

Lemma model_probabilities_first_only (model : Model) (t : ndarray float32) :
  model_probabilities (fun x => first_output_only (model x)) t
  = model_probabilities model t.
Proof.
  destruct (model t) as [[o|[|[k o] d]]|e] eqn:Hm.
  - unfold model_probabilities. rewrite Hm. reflexivity.
  - unfold model_probabilities. rewrite Hm. reflexivity.
  - rewrite (@model_probabilities_first model t k o d Hm).
    apply (@model_probabilities_first _ t k o []). rewrite Hm. reflexivity.
  - unfold model_probabilities. rewrite Hm. reflexivity.
Qed.

Lemma rev_cons_not_nil {A} (x : A) (l : list A) : rev (x :: l) <> [].
Proof.
  simpl. intros H. apply (f_equal (@length A)) in H.
  rewrite length_app in H. simpl in H. lia.
Qed.

(** Softmax keeps the shape of any tensor with at least one axis. *)
Lemma tf_nn_softmax_shape (row : ndarray R) (n : nat) (rest : list nat) :
  shape row = n :: rest ->
  exists p, tf_nn_softmax row = Ok p /\ shape p = n :: rest.
Proof.
  intros Hs. unfold tf_nn_softmax. rewrite Hs.
  destruct (rev (n :: rest)) as [|m outer] eqn:Hr.
  - exfalso. exact (@rev_cons_not_nil _ n rest Hr).
  - eexists. split; reflexivity.
Qed.

(** The probabilities of a keyed result whose first output has a non-empty
    batch axis and a class axis. *)
Lemma model_probabilities_shape (model : Model) (t : ndarray float32)
  (k : string) (o : ndarray R) (d : list (string * ndarray R))
  (b n : nat) (rest : list nat) :
  model t = Ok (OutDict ((k, o) :: d)) ->
  shape o = S b :: n :: rest ->
  exists p, model_probabilities model t = Ok p /\ shape p = n :: rest.
Proof.
  intros Hm Hs. rewrite (model_probabilities_first _ _ Hm).
  unfold tensor_getitem. rewrite Hs. simpl Nat.ltb. cbv iota.
  unfold and_then. apply tf_nn_softmax_shape. reflexivity.
Qed.

Lemma invocation_failure_raises (model : Model) (t : ndarray float32) :
  invocation_failure (model t) <-> exists e, model_probabilities model t = Raise e.
Proof.
  split.
  - intros Hf. remember (model t) as r eqn:Hm. symmetry in Hm.
    destruct Hf as [e|o| |k o d Hs|k o d rest Hs|k o d n Hs].
    + exists e. unfold model_probabilities. rewrite Hm. reflexivity.
    + eexists. unfold model_probabilities. rewrite Hm. reflexivity.
    + eexists. unfold model_probabilities. rewrite Hm. reflexivity.
    + eexists. rewrite (model_probabilities_first _ _ Hm).
      unfold tensor_getitem. rewrite Hs. reflexivity.
    + eexists. rewrite (model_probabilities_first _ _ Hm).
      unfold tensor_getitem. rewrite Hs. reflexivity.
    + eexists. rewrite (model_probabilities_first _ _ Hm).
      unfold tensor_getitem. rewrite Hs. reflexivity.
  - intros [e He].
    destruct (model t) as [[o|[|[k o] d]]|e0] eqn:Hm;
      [apply failure_not_keyed|apply failure_no_output| |apply failure_raised].
    destruct (shape o) as [|[|b] [|n rest]] eqn:Hs.
    + apply failure_scalar. exact Hs.
    + eapply failure_empty_batch. exact Hs.
    + eapply failure_empty_batch. exact Hs.
    + eapply failure_no_class_axis. exact Hs.
    + exfalso. destruct (model_probabilities_shape _ _ Hm Hs) as [p [Hp _]].
      rewrite Hp in He. discriminate.
Qed.

(** ** The mapping from class names to probabilities *)

Lemma dict_setitem_new (d : pydict) (k : string) (v : pyval) :
  ~ In k (keys d) -> dict_setitem d k v = d ++ [(k, v)].
Proof.
  induction d as [|[k' v'] d IH]; simpl; intros Hk.
  - reflexivity.
  - destruct (String.eqb k' k) eqn:E.
    + exfalso. apply Hk. left. apply String.eqb_eq. exact E.
    + rewrite IH by (intros Hin; apply Hk; right; exact Hin). reflexivity.
Qed.

Lemma fold_setitem_nodup (pairs : list (string * pyval)) (acc : pydict) :
  NoDup (keys acc ++ map fst pairs) ->
  fold_left (fun d kv => dict_setitem d (fst kv) (snd kv)) pairs acc = acc ++ pairs.
Proof.
  revert acc. induction pairs as [|[k v] pairs IH]; intros acc Hnd; simpl.
  - rewrite app_nil_r. reflexivity.
  - simpl in Hnd. pose proof (NoDup_remove _ _ _ Hnd) as [Hrest Hk].
    rewrite dict_setitem_new by (intros Hin; apply Hk, in_or_app; left; exact Hin).
    rewrite IH.
    + rewrite <- app_assoc. reflexivity.
    + unfold keys in *. rewrite map_app, <- app_assoc. exact Hnd.
Qed.

(** With distinct keys, [dict] keeps the pairs as they come. *)
Lemma dict_nodup (pairs : list (string * pyval)) :
  NoDup (map fst pairs) -> dict pairs = pairs.
Proof. intros H. unfold dict. rewrite fold_setitem_nodup; [reflexivity|exact H]. Qed.

Lemma map_fst_combine {A B} (names : list A) (l : list B) :
  map fst (combine names l) = firstn (length l) names.
Proof.
  revert l. induction names as [|x names IH]; intros [|y l]; simpl;
    try reflexivity.
  rewrite IH. reflexivity.
Qed.

Lemma In_firstn {A} (n : nat) (l : list A) (x : A) : In x (firstn n l) -> In x l.
Proof.
  revert n. induction l as [|a l IH]; intros [|n]; simpl.
  - intros [].
  - intros [].
  - intros [].
  - intros [H|H]; [left; exact H|right; exact (IH n H)].
Qed.

Lemma NoDup_firstn_keep {A} (n : nat) (l : list A) : NoDup l -> NoDup (firstn n l).
Proof.
  revert n. induction l as [|a l IH]; intros [|n] Hnd; simpl; try constructor.
  - inversion Hnd as [|? ? Hnotin Hrest]; subst.
    intros Hin. apply Hnotin. exact (In_firstn _ _ _ Hin).
  - inversion Hnd; subst. apply IH. assumption.
Qed.

Lemma NoDup_FLOWER_CLASSES : NoDup FLOWER_CLASSES.
Proof.
  unfold FLOWER_CLASSES.
  repeat (constructor;
          [simpl; intros H; repeat (destruct H as [H|H]; [discriminate H|]); destruct H|]).
  constructor.
Qed.

(** Zipping the class names with any list and building the dict gives the
    pairs of the zip, in order. *)
Lemma dict_zip_classes (l : list pyval) :
  dict (combine FLOWER_CLASSES l) = combine FLOWER_CLASSES l /\
  keys (combine FLOWER_CLASSES l) = firstn (length l) FLOWER_CLASSES.
Proof.
  assert (Hk : keys (combine FLOWER_CLASSES l) = firstn (length l) FLOWER_CLASSES)
    by apply map_fst_combine.
  split; [|exact Hk].
  apply dict_nodup. unfold keys in Hk. rewrite Hk.
  apply NoDup_firstn_keep, NoDup_FLOWER_CLASSES.
Qed.

Lemma length_chunks {A} (n k : nat) (l : list A) : length (chunks n k l) = k.
Proof.
  revert l. induction k as [|k IH]; intros l; simpl; [reflexivity|].
  rewrite IH. reflexivity.
Qed.

(** [tolist] of a tensor with a first axis of length [n] is a list of [n]
    values. *)
Lemma tolist_length (p : ndarray R) (n : nat) (rest : list nat) :
  shape p = n :: rest ->
  exists l, tolist p = PyList l /\ length l = n.
Proof.
  intros Hs. unfold tolist. rewrite Hs. simpl.
  eexists. split; [reflexivity|]. rewrite length_map. apply length_chunks.
Qed.

(** The probabilities a model call ends with are never a bare float:
    [tolist] gives a list. *)
Lemma tf_nn_softmax_list (row p : ndarray R) :
  tf_nn_softmax row = Ok p -> exists l, tolist p = PyList l.
Proof.
  unfold tf_nn_softmax. destruct (shape row) as [|n rest] eqn:Hs.
  - discriminate.
  - destruct (rev (n :: rest)) as [|m outer]; [discriminate|].
    intros H. injection H as <-. unfold tolist. simpl. eexists. reflexivity.
Qed.

Lemma model_probabilities_list (model : Model) (t : ndarray float32) (p : ndarray R) :
  model_probabilities model t = Ok p -> exists l, tolist p = PyList l.
Proof.
  unfold model_probabilities, and_then.
  destruct (model t) as [predictions|e]; [|discriminate].
  destruct (keys_of predictions) as [ks|e]; [|discriminate].
  destruct (list_getitem ks 0) as [output_key|e]; [|discriminate].
  destruct (output_getitem predictions output_key) as [outputs|e]; [|discriminate].
  destruct (tensor_getitem outputs 0) as [row|e]; [|discriminate].
  apply tf_nn_softmax_list.
Qed.

(** The mapping [predict_image] returns once preprocessing and the model
    call have succeeded. *)
Lemma predict_image_mapping (model : Model) (image : ref) (h h1 : heap)
  (t : ndarray float32) (p : ndarray R) (n : nat) (rest : list nat) :
  preprocess_image image IMAGE_SIZE h = (Ok t, h1) ->
  model_probabilities model t = Ok p ->
  shape p = n :: rest ->
  exists l,
    tolist p = PyList l /\ length l = n /\
    predict_image model image h = (Ok (combine FLOWER_CLASSES l), h1).
Proof.
  intros Hpre Hprob Hs.
  destruct (tolist_length p Hs) as [l [Hl Hn]].
  exists l. split; [exact Hl|]. split; [exact Hn|].
  rewrite predict_image_unfold, Hpre, Hprob, Hl.
  change (py_zip FLOWER_CLASSES (PyList l)) with (Ok (combine FLOWER_CLASSES l)).
  cbv iota.
  destruct (dict_zip_classes l) as [Hd _]. rewrite Hd. reflexivity.
Qed.

(** C3, amended: for every keyed model result whose first output has a
    non-empty batch axis and a class axis of length [n], [predict_image]
    returns the mapping that zips the class names, in order, with the
    probabilities: the probabilities the model call ends with form a list
    [l] of [n] values, the mapping is the zip of the class names with [l],
    its keys are the first [n] of the five names, and exactly the five
    names, each once, as soon as [n] is at least 5, whatever the scores
    are. *)
Theorem predict_image_class_names (model : Model) (image : ref) (h h1 : heap)
  (t : ndarray float32) (k : string) (o : ndarray R)
  (d : list (string * ndarray R)) (b n : nat) (rest : list nat) :
  preprocess_image image IMAGE_SIZE h = (Ok t, h1) ->
  model t = Ok (OutDict ((k, o) :: d)) ->
  shape o = S b :: n :: rest ->
  exists mapping p l,
    predict_image model image h = (Ok mapping, h1) /\
    keys mapping = firstn n FLOWER_CLASSES /\
    (5 <= n ->
     length mapping = 5 /\ NoDup (keys mapping) /\
     forall c, In c (keys mapping) <-> In c FLOWER_CLASSES) /\
    model_probabilities model t = Ok p /\
    tolist p = PyList l /\
    length l = n /\
    mapping = combine FLOWER_CLASSES l.
Proof.
  intros Hpre Hm Hs.
  destruct (model_probabilities_shape _ _ Hm Hs) as [p [Hprob Hp]].
  destruct (predict_image_mapping _ _ _ Hpre Hprob Hp) as [l [Hl [Hn Hrun]]].
  destruct (dict_zip_classes l) as [_ Hkeys]. rewrite Hn in Hkeys.
  exists (combine FLOWER_CLASSES l), p, l.
  split; [exact Hrun|]. split; [exact Hkeys|].
  split; [|split; [exact Hprob|split; [exact Hl|split; [exact Hn|reflexivity]]]].
  intros Hge.
  assert (Hall : keys (combine FLOWER_CLASSES l) = FLOWER_CLASSES).
  { rewrite Hkeys. apply firstn_all2. simpl. exact Hge. }
  split.
  - rewrite length_combine, Hn. change (length FLOWER_CLASSES) with 5. lia.
  - rewrite Hall. split; [apply NoDup_FLOWER_CLASSES|]. intros c. reflexivity.
Qed.

(** C9: for every probability vector of length at least 5, the keys of the
    mapping [predict_image] returns come in the fixed order dandelion,
    daisy, tulips, sunflowers, roses, each paired with the probability at
    its position. *)
Theorem predict_image_key_order (model : Model) (image : ref) (h h1 : heap)
  (t : ndarray float32) (p : ndarray R) (n : nat) (rest : list nat) :
  preprocess_image image IMAGE_SIZE h = (Ok t, h1) ->
  model_probabilities model t = Ok p ->
  shape p = n :: rest ->
  5 <= n ->
  exists mapping l,
    predict_image model image h = (Ok mapping, h1) /\
    tolist p = PyList l /\
    mapping = combine FLOWER_CLASSES l /\
    keys mapping
    = [ "dandelion"; "daisy"; "tulips"; "sunflowers"; "roses" ]%string.
Proof.
  intros Hpre Hprob Hp Hge.
  destruct (predict_image_mapping _ _ _ Hpre Hprob Hp) as [l [Hl [Hn Hrun]]].
  exists (combine FLOWER_CLASSES l), l.
  split; [exact Hrun|]. split; [exact Hl|]. split; [reflexivity|].
  destruct (dict_zip_classes l) as [_ Hkeys]. rewrite Hkeys, Hn.
  apply (@firstn_all2 _ n FLOWER_CLASSES). simpl. exact Hge.
Qed.

(** C5: on a keyed model result the first key decides.  The probabilities
    come from the first output alone, a result cut down to its first output
    gives the same probabilities, and [predict_image] returns the same with
    a model whose every result is cut down to its first output. *)
Theorem first_output_selected (model : Model) (t : ndarray float32)
  (k : string) (o : ndarray R) (d : list (string * ndarray R)) :
  model t = Ok (OutDict ((k, o) :: d)) ->
  model_probabilities model t = (row <~ tensor_getitem o 0 ;; tf_nn_softmax row) /\
  model_probabilities (fun _ => Ok (OutDict [(k, o)])) t = model_probabilities model t /\
  forall image h,
    predict_image (fun x => first_output_only (model x)) image h
    = predict_image model image h.
Proof.
  intros Hm. split; [exact (model_probabilities_first _ _ Hm)|]. split.
  - rewrite (model_probabilities_first _ _ Hm).
    apply (@model_probabilities_first _ t k o []). reflexivity.
  - intros image h. rewrite !predict_image_unfold.
    destruct (preprocess_image image IMAGE_SIZE h) as [[t'|e] h1]; [|reflexivity].
    rewrite model_probabilities_first_only. reflexivity.
Qed.

(** A failure of the preprocessing reaches the caller of [predict_image]
    under its own detail, which starts with the preprocessing message. *)
Lemma preprocess_failure_detail (model : Model) (image : ref) (h h1 : heap) (e : exn) :
  preprocess_image image IMAGE_SIZE h = (Raise e, h1) ->
  exists cause,
    predict_image model image h
    = (Raise (HTTPException 500 ("예측 실패: 이미지 전처리 실패: " ++ cause)%string), h1).
Proof.
  intros Hpre. rewrite predict_image_unfold, Hpre.
  rewrite preprocess_image_run in Hpre. injection Hpre as Hval _.
  unfold preprocess_value in Hval.
  destruct (nth_error h image) as [im|].
  - destruct (to_RGB im) as [c|e0].
    + destruct (size_eqb (fst c) IMAGE_SIZE); [discriminate|].
      destruct ((fst IMAGE_SIZE <? 1) || (snd IMAGE_SIZE <? 1)); [|discriminate].
      injection Hval as <-. eexists. reflexivity.
    + injection Hval as <-. eexists. reflexivity.
  - injection Hval as <-. eexists. reflexivity.
Qed.

(** C8: when the call of the model fails in any of the ways of
    [invocation_failure], [predict_image] raises an [HTTPException] with
    status 500 that names the failed prediction, a detail no failure of the
    preprocessing gives; and whatever the image and the model, no other
    kind of exception leaves [predict_image]. *)
Theorem invocation_failure_wrapped (model : Model) (image : ref) (h h1 : heap)
  (t : ndarray float32) :
  preprocess_image image IMAGE_SIZE h = (Ok t, h1) ->
  invocation_failure (model t) ->
  predict_image model image h
  = (Raise (HTTPException 500 "예측 실패: 500: 모델 예측에 실패했습니다."), h1) /\
  (forall image' h' h1' e,
     preprocess_image image' IMAGE_SIZE h' = (Raise e, h1') ->
     predict_image model image' h'
     <> (Raise (HTTPException 500 "예측 실패: 500: 모델 예측에 실패했습니다."), h1')) /\
  forall image' h' e,
    fst (predict_image model image' h') = Raise e ->
    exists detail, e = HTTPException 500 detail.
Proof.
  intros Hpre Hfail. split; [|split].
  - apply invocation_failure_raises in Hfail. destruct Hfail as [e He].
    rewrite predict_image_unfold, Hpre, He. reflexivity.
  - intros image' h' h1' e Hraise.
    destruct (preprocess_failure_detail model _ _ Hraise) as [cause Hrun].
    rewrite Hrun. simpl. discriminate.
  - intros image' h' e. apply predict_image_raises_http_500.
Qed.

(** ** The [/predict] handler *)

(** [predict_flower], one case per step that may raise. *)
Lemma predict_flower_unfold (model : Model) (file : UploadFile) (h : heap) :
  predict_flower model file h =
  match file_read file with
  | Raise e => (Raise (HTTPException 500 (str e)), h)
  | Ok contents =>
      match Image_open contents with
      | Raise e => (Raise (HTTPException 500 (str e)), h)
      | Ok opened =>
          match to_RGB opened with
          | Raise e => (Raise (HTTPException 500 (str e)), h ++ [opened])
          | Ok c =>
              match predict_image model (length (h ++ [opened]))
                      ((h ++ [opened]) ++ [RGBImage (fst c) (snd c)]) with
              | (Ok mapping, h') => (Ok (Predictions mapping), h')
              | (Raise e, h') => (Raise (HTTPException 500 (str e)), h')
              end
          end
      end
  end.
Proof.
  unfold predict_flower, try_except, bind at 1. unfold lift at 1.
  destruct (file_read file) as [contents|e]; [|reflexivity].
  unfold bind at 1. unfold lift at 1.
  destruct (Image_open contents) as [opened|e]; [|reflexivity].
  unfold bind at 1. unfold alloc at 1.
  unfold bind at 1. rewrite Image_convert_RGB_run, nth_error_alloc.
  destruct (to_RGB opened) as [c|e]; [|reflexivity].
  unfold bind, ret.
  destruct (predict_image model (length (h ++ [opened]))
              ((h ++ [opened]) ++ [RGBImage (fst c) (snd c)])) as [[mapping|e] h'];
    reflexivity.
Qed.

(** A request to [/predict] ends with a mapping or with an [HTTPException]
    of status 500, never with another exception. *)
Lemma predict_flower_outcome (model : Model) (file : UploadFile) (h : heap) :
  (exists mapping, fst (predict_flower model file h) = Ok (Predictions mapping)) \/
  (exists detail, fst (predict_flower model file h) = Raise (HTTPException 500 detail)).
Proof.
  rewrite predict_flower_unfold.
  destruct (file_read file) as [contents|e]; [|right; eexists; reflexivity].
  destruct (Image_open contents) as [opened|e]; [|right; eexists; reflexivity].
  destruct (to_RGB opened) as [c|e]; [|right; eexists; reflexivity].
  destruct (predict_image model (length (h ++ [opened]))
              ((h ++ [opened]) ++ [RGBImage (fst c) (snd c)])) as [[mapping|e] h'].
  - left. eexists. reflexivity.
  - right. eexists. reflexivity.
Qed.

(** A mapping [predict_image] returns is the class names zipped with the
    list of probabilities the model call ended with. *)
Lemma predict_image_returns (model : Model) (image : ref) (h : heap) (mapping : pydict) :
  fst (predict_image model image h) = Ok mapping ->
  exists t p l,
    model_probabilities model t = Ok p /\ tolist p = PyList l /\
    mapping = combine FLOWER_CLASSES l.
Proof.
  rewrite predict_image_unfold.
  destruct (preprocess_image image IMAGE_SIZE h) as [[t|e] h1]; [|discriminate].
  destruct (model_probabilities model t) as [p|e] eqn:Hp; [|discriminate].
  destruct (model_probabilities_list _ _ Hp) as [l Hl]. rewrite Hl.
  change (py_zip FLOWER_CLASSES (PyList l)) with (Ok (combine FLOWER_CLASSES l)).
  cbv iota. destruct (dict_zip_classes l) as [Hd _]. rewrite Hd. cbn [fst].
  intros H. injection H as <-. exists t, p, l.
  split; [exact Hp|]. split; [exact Hl|reflexivity].
Qed.

Lemma predict_flower_returns (model : Model) (file : UploadFile) (h : heap)
  (mapping : pydict) :
  fst (predict_flower model file h) = Ok (Predictions mapping) ->
  exists t p l,
    model_probabilities model t = Ok p /\ tolist p = PyList l /\
    mapping = combine FLOWER_CLASSES l.
Proof.
  rewrite predict_flower_unfold.
  destruct (file_read file) as [contents|e]; [|discriminate].
  destruct (Image_open contents) as [opened|e]; [|discriminate].
  destruct (to_RGB opened) as [c|e]; [|discriminate].
  destruct (predict_image model (length (h ++ [opened]))
              ((h ++ [opened]) ++ [RGBImage (fst c) (snd c)])) as [[m|e] h'] eqn:Hrun;
    [|discriminate].
  cbn [fst]. intros H. injection H as <-.
  apply (@predict_image_returns model (length (h ++ [opened]))
           ((h ++ [opened]) ++ [RGBImage (fst c) (snd c)])).
  rewrite Hrun. reflexivity.
Qed.

(** C4, amended: an upload whose bytes [Image.open] does not recognise makes
    the [/predict] handler raise an [HTTPException] with status 500 whose
    detail is the decoder's message, which FastAPI answers with status 500
    and that detail; nothing is allocated and no mapping is returned.
    Whatever the upload, the handler ends with this one kind of failure or
    with a mapping, and a mapping is the class names zipped, in order, with
    the list of probabilities the model call ended with: it holds the first
    names, as many as there are probabilities, and all five of them as soon
    as there are at least five.  The process keeps serving after any
    request. *)
Theorem predict_flower_rejects_non_image (model : Model) (file : UploadFile)
  (contents : list byte) (e : exn) (h : heap) :
  file_read file = Ok contents ->
  Image_open contents = Raise e ->
  predict_flower model file h = (Raise (HTTPException 500 (str e)), h) /\
  respond (fst (predict_flower model file h)) = Response 500 (Detail (str e)) /\
  (forall file' h',
     (exists mapping t p l,
        fst (predict_flower model file' h') = Ok (Predictions mapping) /\
        model_probabilities model t = Ok p /\
        tolist p = PyList l /\
        mapping = combine FLOWER_CLASSES l /\
        keys mapping = firstn (length l) FLOWER_CLASSES /\
        (5 <= length l -> keys mapping = FLOWER_CLASSES)) \/
     (exists detail,
        fst (predict_flower model file' h') = Raise (HTTPException 500 detail))) /\
  forall app req h0,
    exists h1 resp, handle (Serving app h0) req = (Serving app h1, Some resp).
Proof.
  intros Hread Hopen.
  assert (Hrun : predict_flower model file h = (Raise (HTTPException 500 (str e)), h)).
  { rewrite predict_flower_unfold, Hread, Hopen. reflexivity. }
  split; [exact Hrun|]. split; [rewrite Hrun; reflexivity|]. split.
  - intros file' h'.
    destruct (predict_flower_outcome model file' h') as [[mapping Hm]|Hd];
      [left|right; exact Hd].
    destruct (predict_flower_returns _ _ _ Hm) as (t & p & l & Hp & Hl & Hz).
    exists mapping, t, p, l.
    split; [exact Hm|]. split; [exact Hp|]. split; [exact Hl|]. split; [exact Hz|].
    destruct (dict_zip_classes l) as [_ Hk]. rewrite Hz.
    split; [exact Hk|]. intros Hge. rewrite Hk.
    apply firstn_all2. simpl. exact Hge.
  - intros app req h0. unfold handle.
    destruct (dispatch app req h0) as [r h1]. eexists. eexists. reflexivity.
Qed.

(** ** Start-up *)

Lemma run_aborted (e : exn) (reqs : list request) : run (Aborted e) reqs = [].
Proof. induction reqs as [|req reqs IH]; simpl; [reflexivity|exact IH]. Qed.

Lemma load_model_unusable (fs : FileSystem) :
  artifact_unusable fs -> exists e, load_model fs = Raise e.
Proof.
  unfold load_model. intros [Hnone|[artifact [e [Hsome Hload]]]].
  - rewrite Hnone. eexists. reflexivity.
  - rewrite Hsome, Hload. eexists. reflexivity.
Qed.

(** A process that serves holds the model [load_model] returned. *)
Lemma serving_has_model (fs : FileSystem) (app : App) (h : heap) :
  start fs = Serving app h -> load_model fs = Ok (app_model app).
Proof.
  unfold start, import_module, and_then.
  destruct (load_model fs) as [m|e]; [|discriminate].
  intros H. injection H as <- _. reflexivity.
Qed.

(** A request never stops a serving process nor changes its application. *)
Lemma handle_keeps_serving (app : App) (h : heap) (req : request) :
  handle (Serving app h) req
  = (Serving app (snd (dispatch app req h)), Some (respond (fst (dispatch app req h)))).
Proof. unfold handle. destruct (dispatch app req h) as [r h']. reflexivity. Qed.

(** C7: when the model file is missing or the loader rejects it,
    [load_model] raises, [FileNotFoundError] for a missing file; the import
    of the module stops there, so the process is aborted and answers no
    request.  A process that serves holds the model loaded at import, and
    handling a request leaves it serving with that same application: the
    failure does not occur once requests are served. *)
Theorem unusable_artifact_aborts (fs : FileSystem) :
  artifact_unusable fs ->
  exists e,
    load_model fs = Raise e /\
    (fs "./base_model.keras"%string = None ->
     e = FileNotFoundError "Model file not found: ./base_model.keras") /\
    import_module fs = Raise e /\
    start fs = Aborted e /\
    (forall reqs, run (start fs) reqs = []) /\
    (forall fs' app h, start fs' = Serving app h -> load_model fs' = Ok (app_model app)) /\
    (forall app h req, exists h' r, handle (Serving app h) req = (Serving app h', Some r)).
Proof.
  intros Hbad. destruct (load_model_unusable Hbad) as [e He].
  exists e. split; [exact He|]. split.
  - intros Hnone. unfold load_model in He. rewrite Hnone in He.
    injection He as <-. reflexivity.
  - assert (Hstart : start fs = Aborted e)
      by (unfold start, import_module; rewrite He; reflexivity).
    split; [unfold import_module; rewrite He; reflexivity|].
    split; [exact Hstart|]. split.
    + intros reqs. rewrite Hstart. apply run_aborted.
    + split.
      * intros fs' app h. apply serving_has_model.
      * intros app h req. rewrite handle_keeps_serving. eexists. eexists. reflexivity.
Qed.

(** * Further properties *)

(** ** Requests do not depend on the heap they find *)

Lemma predict_image_run (model : Model) (image : ref) (h : heap) :
  predict_image model image h
  = (predict_value model (nth_error h image),
     h ++ preprocess_allocs (nth_error h image) IMAGE_SIZE).
Proof.
  rewrite predict_image_unfold, preprocess_image_run. unfold predict_value.
  destruct (preprocess_value (nth_error h image) IMAGE_SIZE) as [t|e]; [|reflexivity].
  destruct (model_probabilities model t) as [probabilities|e]; [|reflexivity].
  destruct (py_zip FLOWER_CLASSES (tolist probabilities)); reflexivity.
Qed.

Lemma predict_flower_value (model : Model) (file : UploadFile) (h : heap) :
  fst (predict_flower model file h) = flower_value model file.
Proof.
  rewrite predict_flower_unfold. unfold flower_value.
  destruct (file_read file) as [contents|e]; [|reflexivity].
  destruct (Image_open contents) as [opened|e]; [|reflexivity].
  destruct (to_RGB opened) as [c|e]; [|reflexivity].
  rewrite predict_image_run, nth_error_alloc.
  destruct (predict_value model (Some (RGBImage (fst c) (snd c)))); reflexivity.
Qed.

(** X4: an upload that is read and decoded is answered from its bytes and
    the model alone.  Whatever image objects earlier requests left on the
    heap, the handler of [/predict] returns the same mapping or raises the
    same exception, and the client gets the same response. *)
Theorem predict_flower_stateless (model : Model) (file : UploadFile)
  (contents : list byte) (opened : Image) (h1 h2 : heap) :
  file_read file = Ok contents ->
  Image_open contents = Ok opened ->
  fst (predict_flower model file h1) = fst (predict_flower model file h2) /\
  respond (fst (predict_flower model file h1))
  = respond (fst (predict_flower model file h2)).
Proof.
  intros _ _. rewrite !predict_flower_value. split; reflexivity.
Qed.

(** ** Preprocessing to any target size, and its failures *)

(** X1: [target_size] is (width, height), the tensor is (1, height, width,
    3).  Whatever the image and the target size, a tensor that
    [preprocess_image] returns has that shape, one element per index, and
    every element is a binary32 in [0.0, 1.0]. *)
Theorem preprocess_image_target_shape (h h' : heap) (image : ref)
  (width height : nat) (t : ndarray float32) :
  preprocess_image image (width, height) h = (Ok t, h') ->
  shape t = [1; height; width; 3] /\
  well_shaped t /\
  length (data t) = height * width * 3 /\
  Forall (fun x => is_binary32 x = true /\ in_unit_interval x = true) (data t).
Proof.
  rewrite preprocess_image_run. intros Hrun. injection Hrun as Hval _.
  assert (Hlen : forall size px,
             length (data (normalized size px)) = snd size * fst size * 3).
  { intros size px. rewrite (normalized_well_shaped size px).
    unfold normalized, rgb_array, numel. cbn [shape fold_right]. lia. }
  unfold preprocess_value in Hval.
  destruct (nth_error h image) as [im|]; [|discriminate].
  destruct (to_RGB im) as [c|e]; [|discriminate].
  destruct (size_eqb (fst c) (width, height)) eqn:Hsize.
  - apply size_eqb_eq in Hsize. injection Hval as <-.
    rewrite Hlen, Hsize. split; [reflexivity|].
    split; [apply normalized_well_shaped|]. split; [reflexivity|].
    apply normalized_in_unit_interval.
  - destruct ((fst (width, height) <? 1) || (snd (width, height) <? 1)); [discriminate|].
    injection Hval as <-. rewrite Hlen. split; [reflexivity|].
    split; [apply normalized_well_shaped|]. split; [reflexivity|].
    apply normalized_in_unit_interval.
Qed.



(** X12: when the image does not convert to RGB, [predict_image] raises an
    [HTTPException] of status 500 whose detail carries the prediction
    prefix, the preprocessing prefix and the converter's message; nothing is
    allocated, and the model has no part in the result. *)
Theorem predict_image_unconvertible (model : Model) (image : ref) (h : heap)
  (im : Image) (e : exn) :
  nth_error h image = Some im ->
  to_RGB im = Raise e ->
  predict_image model image h
  = (Raise (HTTPException 500 ("예측 실패: 이미지 전처리 실패: " ++ str e)%string), h) /\
  forall model', predict_image model' image h = predict_image model image h.
Proof.
  intros Him Hc.
  assert (Hrun : forall m, predict_image m image h
                 = (Raise (HTTPException 500
                             ("예측 실패: 이미지 전처리 실패: " ++ str e)%string), h)).
  { intros m. rewrite predict_image_run, Him.
    unfold predict_value, preprocess_value, preprocess_allocs. rewrite Hc.
    rewrite app_nil_r. reflexivity. }
  split; [apply Hrun|]. intros model'. rewrite !Hrun. reflexivity.
Qed.

(** ** What the model is called with *)

Lemma preprocess_value_valid (obj : option Image) (t : ndarray float32) :
  preprocess_value obj IMAGE_SIZE = Ok t -> valid_input t.
Proof.
  unfold preprocess_value. destruct obj as [im|]; [|discriminate].
  destruct (to_RGB im) as [c|e]; [|discriminate].
  destruct (size_eqb (fst c) IMAGE_SIZE) eqn:Hsize.
  - apply size_eqb_eq in Hsize. intros H. injection H as <-. rewrite Hsize.
    split; [reflexivity|]. split; [apply normalized_well_shaped|].
    apply normalized_in_unit_interval.
  - change ((fst IMAGE_SIZE <? 1) || (snd IMAGE_SIZE <? 1)) with false. cbv iota.
    intros H. injection H as <-.
    split; [reflexivity|]. split; [apply normalized_well_shaped|].
    apply normalized_in_unit_interval.
Qed.

(** X7: [predict_image] calls the model on nothing but the tensor of one
    224 x 224 RGB picture with elements in [0.0, 1.0].  Two models that
    agree on these tensors give the same result on every image and heap,
    however they differ elsewhere. *)
Theorem predict_image_model_input (model model' : Model) :
  (forall t, valid_input t -> model t = model' t) ->
  forall image h, predict_image model image h = predict_image model' image h.
Proof.
  intros Hagree image h. rewrite !predict_image_run. f_equal.
  unfold predict_value.
  destruct (preprocess_value (nth_error h image) IMAGE_SIZE) as [t|e] eqn:Hpre;
    [|reflexivity].
  unfold model_probabilities. rewrite (Hagree t (preprocess_value_valid _ Hpre)).
  reflexivity.
Qed.

(** ** Which part of the model output is read *)

(** X6: of the chosen output only the first slice along the batch axis is
    read.  Two keyed results whose first outputs have the same shape behind
    the batch axis and the same first slice give the same probabilities,
    whatever the batch sizes, the other slices and the output names. *)
Theorem first_batch_row_selected (model model' : Model) (t : ndarray float32)
  (k k' : string) (o o' : ndarray R) (d d' : list (string * ndarray R))
  (b b' : nat) (rest : list nat) :
  model t = Ok (OutDict ((k, o) :: d)) ->
  model' t = Ok (OutDict ((k', o') :: d')) ->
  shape o = S b :: rest ->
  shape o' = S b' :: rest ->
  firstn (numel rest) (data o) = firstn (numel rest) (data o') ->
  model_probabilities model t = model_probabilities model' t.
Proof.
  intros Hm Hm' Hs Hs' Hrow.
  rewrite (model_probabilities_first _ _ Hm), (model_probabilities_first _ _ Hm').
  unfold tensor_getitem. rewrite Hs, Hs'.
  change (0 <? S b) with true. change (0 <? S b') with true. cbv iota.
  simpl skipn. rewrite Hrow. reflexivity.
Qed.

(** ** Failures seen by the client of [/predict] *)

Lemma preprocess_value_RGB (size : nat * nat) (px : nat -> nat -> rgb) :
  exists t, preprocess_value (Some (RGBImage size px)) IMAGE_SIZE = Ok t.
Proof.
  unfold preprocess_value. simpl to_RGB. cbv iota.
  destruct (size_eqb (fst (size, px)) IMAGE_SIZE); [eexists; reflexivity|].
  change ((fst IMAGE_SIZE <? 1) || (snd IMAGE_SIZE <? 1)) with false. cbv iota.
  eexists. reflexivity.
Qed.





(** X13: once the upload decodes and converts, preprocessing cannot fail
    and the zip cannot fail: the model is called on a valid tensor, and the
    request ends either in the inference failure, when the call gives no
    keyed scores, or in the class names zipped with the list of
    probabilities. *)
Theorem decoded_upload_outcome (model : Model) (file : UploadFile) (h : heap)
  (contents : list byte) (opened : Image) (c : nat * nat * (nat -> nat -> rgb)) :
  file_read file = Ok contents ->
  Image_open contents = Ok opened ->
  to_RGB opened = Ok c ->
  exists t,
    valid_input t /\
    ((invocation_failure (model t) /\
      fst (predict_flower model file h)
      = Raise (HTTPException 500 "500: 예측 실패: 500: 모델 예측에 실패했습니다.")) \/
     (exists p l,
        model_probabilities model t = Ok p /\
        tolist p = PyList l /\
        fst (predict_flower model file h) = Ok (Predictions (combine FLOWER_CLASSES l)))).
Proof.
  intros Hread Hopen Hc. rewrite predict_flower_value.
  unfold flower_value. rewrite Hread, Hopen, Hc. unfold predict_value.
  destruct (preprocess_value_RGB (fst c) (snd c)) as [t Ht]. rewrite Ht.
  exists t. split; [exact (preprocess_value_valid _ Ht)|].
  destruct (model_probabilities model t) as [p|e] eqn:Hp.
  - right. destruct (model_probabilities_list _ _ Hp) as [l Hl].
    exists p, l. split; [reflexivity|]. split; [exact Hl|].
    rewrite Hl.
    change (py_zip FLOWER_CLASSES (PyList l)) with (Ok (combine FLOWER_CLASSES l)).
    cbv iota. destruct (dict_zip_classes l) as [Hd _]. rewrite Hd. reflexivity.
  - left. split; [|reflexivity].
    apply invocation_failure_raises. exists e. exact Hp.
Qed.

(** X11: a failure before the prediction reaches the client as status 500
    with the message of the exception itself as the detail, without any
    prefix: so it is when reading the upload raises, and when the picture
    decodes but does not convert to RGB. *)
Theorem predict_flower_early_failure (model : Model) (file : UploadFile)
  (h : heap) (e : exn) :
  (file_read file = Raise e \/
   exists contents opened,
     file_read file = Ok contents /\
     Image_open contents = Ok opened /\
     to_RGB opened = Raise e) ->
  fst (predict_flower model file h) = Raise (HTTPException 500 (str e)) /\
  respond (fst (predict_flower model file h)) = Response 500 (Detail (str e)) /\
  forall model', fst (predict_flower model' file h) = fst (predict_flower model file h).
Proof.
  intros Hearly.
  assert (Hv : forall m, fst (predict_flower m file h) = Raise (HTTPException 500 (str e))).
  { intros m. rewrite predict_flower_value. unfold flower_value.
    destruct Hearly as [Hread|[contents [opened [Hread [Hopen Hc]]]]].
    - rewrite Hread. reflexivity.
    - rewrite Hread, Hopen, Hc. reflexivity. }
  split; [apply Hv|]. split; [rewrite Hv; reflexivity|].
  intros model'. rewrite !Hv. reflexivity.
Qed.

(** ** The normalisation keeps the pixel intensities apart *)

Lemma adjacent_increasing_checked : adjacent_increasing = true.
Proof. vm_compute. reflexivity. Qed.

Lemma sample_value_step (n : nat) :
  n < 255 -> (sample_value n < sample_value (S n))%Q.
Proof.
  intros Hn. pose proof adjacent_increasing_checked as Hall.
  unfold adjacent_increasing in Hall. rewrite forallb_forall in Hall.
  assert (Hin : In n (seq 0 255)) by (apply in_seq; lia).
  specialize (Hall n Hin). apply negb_true_iff in Hall.
  apply Qnot_le_lt. intros Hle. apply Qle_bool_iff in Hle. congruence.
Qed.

Lemma sample_value_increasing (n m : nat) :
  n < m -> m <= 255 -> (sample_value n < sample_value m)%Q.
Proof.
  induction m as [|m IH]; intros Hlt Hm; [lia|].
  destruct (Nat.eq_dec n m) as [->|Hne].
  - apply sample_value_step. lia.
  - apply Qlt_trans with (y := sample_value m).
    + apply IH; lia.
    + apply sample_value_step. lia.
Qed.

Lemma sample_value_byte (b : byte) :
  f32_to_Q (normalized_sample b) = sample_value (N.to_nat (Byte.to_N b)).
Proof.
  unfold normalized_sample, sample_value, f32_of_uint8. rewrite N_nat_Z. reflexivity.
Qed.

(** X10: dividing a sample by 255.0 in float32 is strictly increasing in
    the sample.  A brighter pixel value gives an element of strictly larger
    value, so no two of the 256 intensities fall on the same float. *)
Theorem normalized_sample_increasing (b1 b2 : byte) :
  (Byte.to_N b1 < Byte.to_N b2)%N ->
  (f32_to_Q (normalized_sample b1) < f32_to_Q (normalized_sample b2))%Q /\
  normalized_sample b1 <> normalized_sample b2.
Proof.
  intros Hlt.
  assert (Hinc : (f32_to_Q (normalized_sample b1) < f32_to_Q (normalized_sample b2))%Q).
  { rewrite !sample_value_byte. pose proof (Byte.to_N_bounded b2) as Hb.
    apply sample_value_increasing; lia. }
  split; [exact Hinc|].
  intros Heq. rewrite Heq in Hinc. exact (Qlt_irrefl _ Hinc).
Qed.

End Server.

Arguments RGBImage {other_image} size px.
Arguments Aborted {other_image} e.

(** * A concrete instance

    Grey-scale pictures stand for the other modes, nearest-neighbour for the
    resampling filter, a one-byte format for the decoder and constant
    functions for trained models.  The statements above are run on it. *)

Module Fixture.

(** A mode-L image: its size and the luminance at each position. *)
Record grey : Type := { grey_size : nat * nat; grey_px : nat -> nat -> byte }.

Definition grey_to_RGB (g : grey) : result (nat * nat * (nat -> nat -> rgb)) :=
  Ok (grey_size g, fun x y => (grey_px g x y, grey_px g x y, grey_px g x y)).

Definition nearest {A} (size0 : nat * nat) (px : nat -> nat -> A) (size : nat * nat)
  : nat -> nat -> A :=
  fun x y => px (x * fst size0 / fst size) (y * snd size0 / snd size).

Definition grey_resize (g : grey) (size : nat * nat) : result grey :=
  if (fst size <? 1) || (snd size <? 1)
  then Raise (ValueError "height and width must be > 0")
  else Ok {| grey_size := size; grey_px := nearest (grey_size g) (grey_px g) size |}.

Definition grey_asarray (g : grey) : result (ndarray float32) :=
  Ok {| shape := [snd (grey_size g); fst (grey_size g)];
        data := flat_map (fun y => map (fun x => f32_of_uint8 (grey_px g x y))
                                       (seq 0 (fst (grey_size g))))
                         (seq 0 (snd (grey_size g))) |}.

(** A file is one byte, the luminance of a 1 x 1 picture; an empty file is
    not an image. *)
Definition decode (contents : list byte) : result (Image grey) :=
  match contents with
  | [] => Raise (LibraryError "UnidentifiedImageError" "cannot identify image file")
  | l :: _ => Ok (OtherImage {| grey_size := (1, 1); grey_px := fun _ _ => l |})
  end.

Definition scan : Image grey :=
  OtherImage {| grey_size := (3, 2); grey_px := fun _ _ => "128"%byte |}.

Definition photo : Image grey :=
  RGBImage (2, 1) (fun x _ => if x =? 0 then ("255", "000", "000")%byte
                              else ("000", "255", "000")%byte).

Definition scan_pixels : nat * nat * (nat -> nat -> rgb) :=
  ((3, 2), fun _ _ => ("128", "128", "128")%byte).

Definition scan_tensor : ndarray float32 :=
  normalized IMAGE_SIZE (nearest (fst scan_pixels) (snd scan_pixels) IMAGE_SIZE).

(** The heap [preprocess_image] leaves when it starts from [scan] alone. *)
Definition scan_heap : heap grey :=
  [ scan;
    RGBImage (fst scan_pixels) (snd scan_pixels);
    RGBImage IMAGE_SIZE (nearest (fst scan_pixels) (snd scan_pixels) IMAGE_SIZE) ].

Definition five_scores : ndarray R :=
  {| shape := [1; 5]; data := [0.1; 0.1; 0.1; 0.1; 5.0]%R |}.

Definition three_scores : ndarray R :=
  {| shape := [1; 3]; data := [1; 2; 3]%R |}.

Definition five_scores_model : Model :=
  fun _ => Ok (OutDict [("output_0"%string, five_scores)]).

Definition three_scores_model : Model :=
  fun _ => Ok (OutDict [("output_0"%string, three_scores)]).

Definition two_outputs_model : Model :=
  fun _ => Ok (OutDict [("output_0"%string, five_scores); ("output_1"%string, three_scores)]).

Definition failing_model : Model :=
  fun _ => Raise (LibraryError "InvalidArgumentError" "incompatible shapes").

Definition loader (artifact : list byte) : result Model :=
  match artifact with
  | [] => Raise (ValueError "File format not supported")
  | _ => Ok five_scores_model
  end.

Definition empty_disk : FileSystem := fun _ => None.

Definition empty_upload : UploadFile := {| file_read := Ok [] |}.

Definition one_byte_upload : UploadFile := {| file_read := Ok ["128"%byte] |}.

Lemma preprocess_scan :
  preprocess_image grey_to_RGB grey_resize grey_asarray nearest 0 IMAGE_SIZE [scan]
  = (Ok scan_tensor, scan_heap).
Proof. rewrite preprocess_image_run. reflexivity. Qed.

Definition run_preprocess_image :=
  preprocess_image grey_to_RGB grey_resize grey_asarray nearest.

Definition run_predict_image :=
  predict_image grey_to_RGB grey_resize grey_asarray nearest.

Definition run_predict_flower :=
  predict_flower grey_to_RGB grey_resize grey_asarray nearest decode.

(** C1 on the scanned picture. *)
Lemma scan_tensor_shape :
  exists t h',
    run_preprocess_image 0 IMAGE_SIZE [scan] = (Ok t, h') /\
    shape t = [1; 224; 224; 3] /\
    Forall (fun x => is_binary32 x = true /\ in_unit_interval x = true) (data t) /\
    Forall2 rounds_quotient (data t)
            (rgb_samples IMAGE_SIZE (resized nearest (fst scan_pixels) (snd scan_pixels)
                                       IMAGE_SIZE)).
Proof.
  destruct (preprocess_image_tensor grey_to_RGB grey_resize grey_asarray nearest
              [scan] 0 (im := scan) (c := scan_pixels) eq_refl eq_refl)
    as (t & h' & Hrun & Hshape & _ & _ & Hrange & _ & Hquot).
  exists t, h'. split; [exact Hrun|]. split; [exact Hshape|].
  split; [exact Hrange|exact Hquot].
Defined.

(** C3 on a model with five scores. *)
Lemma five_scores_class_names :
  exists mapping l,
    run_predict_image five_scores_model 0 [scan] = (Ok mapping, scan_heap) /\
    keys mapping = FLOWER_CLASSES /\
    length l = 5 /\
    mapping = combine FLOWER_CLASSES l.
Proof.
  destruct (predict_image_class_names grey_to_RGB grey_resize grey_asarray nearest
              five_scores_model 0 [scan] (o := five_scores) (b := 0) (n := 5)
              preprocess_scan eq_refl eq_refl)
    as (mapping & p & l & Hrun & Hkeys & _ & _ & _ & Hlen & Hzip).
  exists mapping, l. split; [exact Hrun|]. split; [exact Hkeys|].
  split; [exact Hlen|exact Hzip].
Defined.

(** C3 as first stated fails on a model with three scores: the mapping has
    three of the five class names. *)
Lemma three_scores_three_names :
  exists mapping,
    run_predict_image three_scores_model 0 [scan] = (Ok mapping, scan_heap) /\
    keys mapping = [ "dandelion"; "daisy"; "tulips" ]%string /\
    length mapping = 3 /\
    keys mapping <> FLOWER_CLASSES.
Proof.
  destruct (@model_probabilities_shape three_scores_model scan_tensor
              "output_0"%string three_scores [] 0 3 [] eq_refl eq_refl)
    as (p & Hprob & Hshape).
  destruct (predict_image_mapping grey_to_RGB grey_resize grey_asarray nearest
              three_scores_model 0 [scan] preprocess_scan Hprob Hshape)
    as (l & _ & Hlen & Hrun).
  exists (combine FLOWER_CLASSES l). split; [exact Hrun|].
  destruct l as [|p0 [|p1 [|p2 [|p3 l]]]]; try discriminate Hlen.
  split; [reflexivity|]. split; [reflexivity|]. discriminate.
Qed.

(** C4 on an empty upload. *)
Lemma empty_upload_rejected :
  run_predict_flower five_scores_model empty_upload []
  = (Raise (HTTPException 500 "cannot identify image file"), []) /\
  respond (fst (run_predict_flower five_scores_model empty_upload []))
  = Response 500 (Detail "cannot identify image file").
Proof.
  destruct (predict_flower_rejects_non_image grey_to_RGB grey_resize grey_asarray
              nearest decode five_scores_model empty_upload (contents := [])
              (e := LibraryError "UnidentifiedImageError" "cannot identify image file")
              [] eq_refl eq_refl)
    as (Hrun & Hresp & _).
  split; [exact Hrun|exact Hresp].
Defined.

(** C4 as first stated fails on a model with three scores: an upload that
    decodes is answered with status 200 and a mapping that holds three of
    the five class names. *)
Lemma three_scores_incomplete_mapping :
  exists mapping,
    fst (run_predict_flower three_scores_model one_byte_upload [])
    = Ok (Predictions mapping) /\
    respond (fst (run_predict_flower three_scores_model one_byte_upload []))
    = Response 200 (Predictions mapping) /\
    keys mapping = [ "dandelion"; "daisy"; "tulips" ]%string /\
    length mapping = 3 /\
    keys mapping <> FLOWER_CLASSES.
Proof.
  unfold run_predict_flower. rewrite predict_flower_value.
  unfold flower_value.
  change (file_read one_byte_upload) with (@Ok (list byte) ["128"%byte]). cbv iota.
  change (decode ["128"%byte])
    with (Ok (OtherImage {| grey_size := (1, 1); grey_px := fun _ _ => "128"%byte |})).
  cbv iota. unfold to_RGB, grey_to_RGB. cbv iota. unfold predict_value.
  match goal with
  | |- context [preprocess_value ?f ?g (Some (RGBImage ?sz ?px)) IMAGE_SIZE] =>
      destruct (preprocess_value_RGB f g sz px) as [t Ht]
  end.
  cbn [fst snd grey_size grey_px] in Ht |- *. rewrite Ht.
  destruct (@model_probabilities_shape three_scores_model t
              "output_0"%string three_scores [] 0 3 [] eq_refl eq_refl)
    as (p & Hprob & Hshape).
  rewrite Hprob. destruct (tolist_length p Hshape) as (l & Hl & Hlen).
  rewrite Hl.
  change (py_zip FLOWER_CLASSES (PyList l)) with (Ok (combine FLOWER_CLASSES l)).
  cbv iota. destruct (dict_zip_classes l) as [Hd _]. rewrite Hd.
  exists (combine FLOWER_CLASSES l).
  split; [reflexivity|]. split; [reflexivity|].
  destruct l as [|p0 [|p1 [|p2 [|p3 l]]]]; try discriminate Hlen.
  split; [reflexivity|]. split; [reflexivity|]. discriminate.
Qed.

(** C5 on a model with two named outputs. *)
Lemma two_outputs_first_selected :
  model_probabilities (fun _ => Ok (OutDict [("output_0"%string, five_scores)])) scan_tensor
  = model_probabilities two_outputs_model scan_tensor.
Proof.
  destruct (first_output_selected grey_to_RGB grey_resize grey_asarray nearest
              two_outputs_model scan_tensor (k := "output_0"%string) (o := five_scores)
              (d := [("output_1"%string, three_scores)]) eq_refl)
    as (_ & Hsame & _).
  exact Hsame.
Defined.

(** C6 on two heaps that hold the same picture at the same place. *)
Lemma scan_deterministic :
  fst (run_preprocess_image 0 IMAGE_SIZE [scan])
  = fst (run_preprocess_image 0 IMAGE_SIZE [scan; photo]).
Proof.
  exact (preprocess_image_deterministic grey_to_RGB grey_resize grey_asarray nearest
           0 IMAGE_SIZE [scan] [scan; photo] eq_refl).
Defined.

(** C7 on a disk without the model file. *)
Lemma empty_disk_aborts :
  exists e,
    load_model loader empty_disk = Raise e /\
    start grey loader empty_disk = Aborted e.
Proof.
  destruct (unusable_artifact_aborts grey_to_RGB grey_resize grey_asarray nearest
              decode (keras_load_model := loader) (fs := empty_disk)
              (or_introl eq_refl))
    as (e & Hload & _ & _ & Hstart & _).
  exists e. split; [exact Hload|exact Hstart].
Defined.

(** C8 on a model whose call raises. *)
Lemma failing_model_wrapped :
  run_predict_image failing_model 0 [scan]
  = (Raise (HTTPException 500 "예측 실패: 500: 모델 예측에 실패했습니다."), scan_heap).
Proof.
  destruct (invocation_failure_wrapped grey_to_RGB grey_resize grey_asarray nearest
              failing_model 0 [scan] preprocess_scan
              (failure_raised (LibraryError "InvalidArgumentError" "incompatible shapes")))
    as (Hrun & _).
  exact Hrun.
Defined.

(** C9 on a model with five scores. *)
Lemma five_scores_key_order :
  exists mapping,
    run_predict_image five_scores_model 0 [scan] = (Ok mapping, scan_heap) /\
    keys mapping = [ "dandelion"; "daisy"; "tulips"; "sunflowers"; "roses" ]%string.
Proof.
  destruct (predict_image_key_order grey_to_RGB grey_resize grey_asarray nearest
              five_scores_model 0 [scan]
              (p := {| shape := [5]; data := softmax (data five_scores) ++ [] |})
              (n := 5) (rest := [])
              preprocess_scan eq_refl eq_refl (le_n 5))
    as (mapping & l & Hrun & _ & _ & Hkeys).
  exists mapping. split; [exact Hrun|exact Hkeys].
Defined.

(** C10 on the scanned picture. *)
Lemma scan_convert_then_preprocess :
  fst (run_preprocess_image 1 IMAGE_SIZE
         [scan; RGBImage (fst scan_pixels) (snd scan_pixels)])
  = fst (run_preprocess_image 0 IMAGE_SIZE [scan]).
Proof.
  exact (convert_RGB_then_preprocess grey_to_RGB grey_resize grey_asarray nearest
           0 IMAGE_SIZE [scan] (image' := 1)
           (h' := [scan; RGBImage (fst scan_pixels) (snd scan_pixels)]) eq_refl).
Defined.

(** The scenario of the specification: with the scores 0.1, 0.1, 0.1, 0.1,
    5.0 all five names are present and roses gets more than 0.9. *)

(** ** The further properties on the instance *)

(** Two pictures in one batch; the first row is the row of [five_scores]. *)
Definition two_rows : ndarray R :=
  {| shape := [2; 5]; data := [0.1; 0.1; 0.1; 0.1; 5.0; 7; 7; 7; 7; 7]%R |}.

Definition two_rows_model : Model :=
  fun _ => Ok (OutDict [("scores"%string, two_rows)]).

(** A model that rejects every tensor of another shape than the expected
    one. *)
Definition strict_model : Model :=
  fun t =>
    if list_eq_dec Nat.eq_dec (shape t) [1; 224; 224; 3]
    then five_scores_model t
    else Raise (LibraryError "ValueError" "incompatible input shape").

(** A converter table without an entry for grey pictures. *)
Definition no_converter (g : grey) : result (nat * nat * (nat -> nat -> rgb)) :=
  Raise (ValueError "conversion not supported").

Definition broken_upload : UploadFile :=
  {| file_read := Raise (LibraryError "ClientDisconnect" "connection lost") |}.

Lemma preprocess_scan_to_4_by_2 :
  run_preprocess_image 0 (4, 2) [scan]
  = (Ok (normalized (4, 2) (nearest (fst scan_pixels) (snd scan_pixels) (4, 2))),
     [ scan;
       RGBImage (fst scan_pixels) (snd scan_pixels);
       RGBImage (4, 2) (nearest (fst scan_pixels) (snd scan_pixels) (4, 2)) ]).
Proof. unfold run_preprocess_image. rewrite preprocess_image_run. reflexivity. Qed.

(** X1 on the scanned picture and a 4 x 2 target. *)
Lemma scan_to_4_by_2 :
  exists t h',
    run_preprocess_image 0 (4, 2) [scan] = (Ok t, h') /\
    shape t = [1; 2; 4; 3] /\
    length (data t) = 24.
Proof.
  destruct (preprocess_image_target_shape grey_to_RGB grey_resize grey_asarray nearest
              [scan] 0 4 2 preprocess_scan_to_4_by_2)
    as (Hshape & _ & Hlen & _).
  eexists. eexists. split; [exact preprocess_scan_to_4_by_2|].
  split; [exact Hshape|exact Hlen].
Defined.





(** X13 on an upload of one byte and a model with five scores. *)
Lemma one_byte_upload_outcome :
  exists l,
    fst (run_predict_flower five_scores_model one_byte_upload [])
    = Ok (Predictions (combine FLOWER_CLASSES l)).
Proof.
  destruct (decoded_upload_outcome grey_to_RGB grey_resize grey_asarray nearest decode
              five_scores_model one_byte_upload [] (contents := ["128"%byte])
              eq_refl eq_refl eq_refl)
    as (t & _ & [[Hfail _]|(p & l & _ & _ & Hrun)]).
  - exfalso. inversion Hfail; discriminate.
  - exists l. exact Hrun.
Defined.

(** X4 on an upload of one byte, on a fresh heap and after another
    request. *)
Lemma one_byte_upload_any_heap :
  fst (run_predict_flower five_scores_model one_byte_upload [])
  = fst (run_predict_flower five_scores_model one_byte_upload scan_heap).
Proof.
  destruct (predict_flower_stateless grey_to_RGB grey_resize grey_asarray nearest decode
              five_scores_model one_byte_upload (contents := ["128"%byte])
              [] scan_heap eq_refl eq_refl)
    as (Hsame & _).
  exact Hsame.
Defined.

(** X6 on a batch of two rows against a batch of one. *)
Lemma two_rows_first_selected :
  model_probabilities two_rows_model scan_tensor
  = model_probabilities five_scores_model scan_tensor.
Proof.
  exact (first_batch_row_selected two_rows_model five_scores_model scan_tensor
           (k := "scores"%string) (k' := "output_0"%string)
           (o := two_rows) (o' := five_scores) (d := []) (d' := [])
           (b := 1) (b' := 0) (rest := [5])
           eq_refl eq_refl eq_refl eq_refl eq_refl).
Defined.

Lemma strict_model_agrees (t : ndarray float32) :
  valid_input t -> strict_model t = five_scores_model t.
Proof.
  intros [Hshape _]. unfold strict_model.
  destruct (list_eq_dec Nat.eq_dec (shape t) [1; 224; 224; 3]); [reflexivity|contradiction].
Qed.

(** X7 on a model that checks the shape of its input. *)
Lemma strict_model_same_result :
  run_predict_image strict_model 0 [scan] = run_predict_image five_scores_model 0 [scan].
Proof.
  exact (predict_image_model_input grey_to_RGB grey_resize grey_asarray nearest
           strict_model five_scores_model strict_model_agrees 0 [scan]).
Defined.

(** X10 on the two darkest samples. *)
Lemma darkest_samples_apart :
  (f32_to_Q (normalized_sample "000"%byte) < f32_to_Q (normalized_sample "001"%byte))%Q.
Proof.
  destruct (normalized_sample_increasing "000"%byte "001"%byte eq_refl)
    as (Hlt & _).
  exact Hlt.
Defined.

(** X11 on an upload whose reading raises. *)
Lemma broken_upload_answers_500 :
  respond (fst (run_predict_flower five_scores_model broken_upload []))
  = Response 500 (Detail "connection lost").
Proof.
  destruct (predict_flower_early_failure grey_to_RGB grey_resize grey_asarray nearest
              decode five_scores_model broken_upload []
              (e := LibraryError "ClientDisconnect" "connection lost")
              (or_introl eq_refl))
    as (_ & Hresp & _).
  exact Hresp.
Defined.

(** X12 on the scanned picture without a converter. *)
Lemma scan_without_converter :
  predict_image no_converter grey_resize grey_asarray nearest five_scores_model 0 [scan]
  = (Raise (HTTPException 500 "예측 실패: 이미지 전처리 실패: conversion not supported"),
     [scan]).
Proof.
  destruct (predict_image_unconvertible no_converter grey_resize grey_asarray nearest
              five_scores_model 0 [scan] (im := scan)
              (e := ValueError "conversion not supported") eq_refl eq_refl)
    as (Hrun & _).
  exact Hrun.
Defined.

End Fixture.
